(** * sync-models: the roster synchronisation script

    A shallow embedding of [scripts/sync-models.js] and the properties of
    its pipeline: reading the roster (live sheet or built-in sample data),
    normalising rows, resolving photos, writing the JSON snapshot and
    computing the statistics.

    Modelling choices.
    - A JavaScript string is its sequence of UTF-16 code units ([jsstring]).
    - A sheet row is a finite map from property names to primitive values;
      a property that is not there reads as [undefined].
    - The outside world (sheet provider, file system, clock and the
      [Math.random] generator) is an explicit environment [Env]; the file
      system and the number of random draws made so far are the state
      [World] threaded through the run.  A thrown exception is the [Throw]
      branch of [outcome].
    - [Math.random() * 1000] is IEEE-754 binary64 multiplication, taken
      from the Standard Library's [SpecFloat].
    - Console output is not part of the model. *)

From Stdlib Require Import ZArith NArith Lia Bool List String Ascii Permutation.
From Stdlib Require Import DecimalString.
From Stdlib Require Import Floats.SpecFloat.
From stdpp Require Import base option list gmap strings.

Local Open Scope Z_scope.

(** ** JavaScript strings *)

Module JS.

(** A string value: UTF-16 code units, each below 65536. *)
Definition jsstring : Type := list N.

(** Code points of a UTF-8 byte sequence (used only to write literals). *)
Fixpoint utf8_decode (bs : list N) : list N :=
  match bs with
  | [] => []
  | b0 :: t =>
    if (b0 <? 128)%N then b0 :: utf8_decode t
    else if (b0 <? 224)%N then
      match t with
      | b1 :: t1 => ((b0 - 192) * 64 + (b1 - 128))%N :: utf8_decode t1
      | _ => []
      end
    else if (b0 <? 240)%N then
      match t with
      | b1 :: b2 :: t2 =>
        ((b0 - 224) * 4096 + (b1 - 128) * 64 + (b2 - 128))%N :: utf8_decode t2
      | _ => []
      end
    else
      match t with
      | b1 :: b2 :: b3 :: t3 =>
        ((b0 - 240) * 262144 + (b1 - 128) * 4096 + (b2 - 128) * 64 + (b3 - 128))%N
          :: utf8_decode t3
      | _ => []
      end
  end.

(** UTF-16 encoding of one code point. *)
Definition utf16_encode (cp : N) : list N :=
  if (cp <? 65536)%N then [cp]
  else [(55296 + (cp - 65536) / 1024)%N; (56320 + (cp - 65536) mod 1024)%N].

(** The [jsstring] of a literal written in this file. *)
Definition utf16 (s : string) : jsstring :=
  concat (List.map utf16_encode
            (utf8_decode (List.map N_of_ascii (list_ascii_of_string s)))).

(** ECMAScript WhiteSpace and LineTerminator code units, the characters
    removed by [String.prototype.trim]. *)
Definition is_whitespace (c : N) : bool :=
  ((9 <=? c) && (c <=? 13) || (c =? 32) || (c =? 160) || (c =? 5760)
   || (8192 <=? c) && (c <=? 8202) || (c =? 8232) || (c =? 8233)
   || (c =? 8239) || (c =? 8287) || (c =? 12288) || (c =? 65279))%N.

Fixpoint dropWhile {A} (p : A -> bool) (l : list A) : list A :=
  match l with
  | [] => []
  | x :: t => if p x then dropWhile p t else l
  end.

Definition trimStart (s : jsstring) : jsstring := dropWhile is_whitespace s.
Definition trimEnd (s : jsstring) : jsstring := rev (dropWhile is_whitespace (rev s)).

(** [s.trim()] *)
Definition trim (s : jsstring) : jsstring := trimEnd (trimStart s).

(** [s.split(sep)] for a one-unit separator: never the empty array. *)
Fixpoint split (sep : N) (s : jsstring) : list jsstring :=
  match s with
  | [] => [[]]
  | c :: t =>
    if (c =? sep)%N then [] :: split sep t
    else match split sep t with
         | h :: r => (c :: h) :: r
         | [] => [[c]]
         end
  end.

Definition jsstring_eqb (a b : jsstring) : bool := bool_decide (a = b).

(** ** Primitive values *)

(** The values a sheet cell can hold in a row object.  The sheet library
    delivers the text of a cell, and [undefined] for a blank one; [null] and
    booleans are kept so that the strict comparisons are visible. *)
Inductive value : Type :=
  | JUndefined
  | JNull
  | JBool (b : bool)
  | JStr (s : jsstring).

(** ToBoolean *)
Definition truthy (v : value) : bool :=
  match v with
  | JUndefined | JNull => false
  | JBool b => b
  | JStr s => negb (bool_decide (s = []))
  end.

(** [a || b] *)
Definition js_or (a b : value) : value := if truthy a then a else b.

(** [String(v)] *)
Definition String (v : value) : jsstring :=
  match v with
  | JUndefined => utf16 "undefined"
  | JNull => utf16 "null"
  | JBool true => utf16 "true"
  | JBool false => utf16 "false"
  | JStr s => s
  end.

(** [a === b] *)
Definition strict_eq (a b : value) : bool :=
  match a, b with
  | JUndefined, JUndefined => true
  | JNull, JNull => true
  | JBool x, JBool y => Bool.eqb x y
  | JStr x, JStr y => jsstring_eqb x y
  | _, _ => false
  end.

(** An array is an object, hence always truthy. *)
Definition truthy_array {A} (_ : list A) : bool := true.

(** ** Numbers *)

(** The numbers the script prints: integral values, NaN and the
    infinities. *)
Inductive number : Type :=
  | NInt (z : Z)
  | NNaN
  | NInf (negative : bool).

Definition prec : Z := 53.
Definition emax : Z := 1024.

(** A binary64 value. *)
Definition float64 : Type := spec_float.

(** The literal [1000]. *)
Definition thousand : float64 := S754_finite false (1000 * 2 ^ 43)%positive (-43).

(** [x * y] on binary64 *)
Definition Number_multiply (x y : float64) : float64 := SFmul prec emax x y.

(** [Math.floor(x)]: the value [(-1)^s * m * 2^e] rounded towards minus
    infinity. *)
Definition Math_floor (x : float64) : number :=
  match x with
  | S754_zero _ => NInt 0
  | S754_finite s m e => NInt (Z.shiftl (cond_Zopp s (Zpos m)) e)
  | S754_infinity s => NInf s
  | S754_nan => NNaN
  end.

(** Number::toString, radix 10.  Decimal digits for an integral value
    (exact below 10^21 in magnitude, where JavaScript switches to exponent
    notation). *)
Definition Number_toString (n : number) : jsstring :=
  match n with
  | NInt z => utf16 (NilZero.string_of_int (Z.to_int z))
  | NNaN => utf16 "NaN"
  | NInf false => utf16 "Infinity"
  | NInf true => utf16 "-Infinity"
  end.

(** What [Math.random()] may return: a binary64 value with positive sign,
    greater than or equal to 0 and less than 1. *)
Definition is_random_draw (r : float64) : bool :=
  valid_binary prec emax r &&
  match r with
  | S754_zero false => true
  | S754_finite false m e => (e <? 0) && (Zpos m <? 2 ^ (- e))
  | _ => false
  end.

End JS.

Import JS.

(** ** Data model *)

(** A row object of the sheet: property name to cell value. *)
Abbreviation Row := (gmap string value).

(** [row.k] *)
Definition prop (row : Row) (k : string) : value := default JUndefined (row !! k).

(** A model object (roster entity).  [id], [name] are strings on both
    paths that build one; the descriptive fields carry whatever the row
    held ([JUndefined] when the property is not set). *)
Record Entity : Type := {
  id : jsstring;
  name : jsstring;
  height : value;
  measurements : value;
  city : value;
  category : value;
  bio : value;
  is_available : bool;
  photos : list jsstring
}.

(** [model.photos = ps] *)
Definition set_photos (model : Entity) (ps : list jsstring) : Entity :=
  {| id := id model; name := name model; height := height model;
     measurements := measurements model; city := city model;
     category := category model; bio := bio model;
     is_available := is_available model; photos := ps |}.

Record Stats : Type := {
  totalModels : nat;
  modelsWithPhotos : nat;
  totalPhotos : nat;
  timestamp : jsstring
}.

Record Result : Type := { success : bool; stats : Stats }.

(** ** Effects *)

Record Error : Type := { message : jsstring }.

Inductive outcome (A : Type) : Type :=
  | Return (a : A)
  | Throw (e : Error).
Arguments Return {A} a.
Arguments Throw {A} e.

(** The responses of the sheet provider during one run. *)
Record LiveSource : Type := {
  (** [JSON.parse(Buffer.from(process.env.GOOGLE_SERVICE_ACCOUNT_JSON,
      'base64').toString())], given the variable's value if set *)
  parseServiceAccount : option jsstring -> outcome unit;
  useServiceAccountAuth : outcome unit;
  loadInfo : outcome unit;
  (** [doc.sheetsByIndex[0].getRows()] *)
  getRows : outcome (list Row)
}.

(** Everything outside the script. *)
Record Env : Type := {
  process_env : gmap string jsstring;
  sheets : LiveSource;
  (** the successive results of [Math.random()] *)
  Math_random : nat -> float64;
  mkdirSync : outcome unit;
  writeFileSync : outcome unit;
  (** when [writeFileSync] throws: whether it had already opened the file
      (flag 'w', which creates or truncates it) before failing *)
  writeFileSync_opened : bool;
  (** [new Date().toISOString()] at the end of the run *)
  Date_toISOString : jsstring
}.

(** The mutable part: random draws consumed, the output directory and
    the output file.  [file] is the array whose complete JSON text the
    file holds; it is [None] when the file is missing, empty or cut
    short. *)
Record World : Type := {
  random_calls : nat;
  dir_exists : bool;
  file : option (list Entity)
}.

Definition M (A : Type) : Type := World -> outcome A * World.

Definition ret {A} (a : A) : M A := fun w => (Return a, w).
Definition throw {A} (e : Error) : M A := fun w => (Throw e, w).
Definition bind {A B} (c : M A) (k : A -> M B) : M B :=
  fun w => match c w with
           | (Return a, w') => k a w'
           | (Throw e, w') => (Throw e, w')
           end.
Definition try_catch {A} (c : M A) (handler : Error -> M A) : M A :=
  fun w => match c w with
           | (Return a, w') => (Return a, w')
           | (Throw e, w') => handler e w'
           end.
Definition lift {A} (o : outcome A) : M A := fun w => (o, w).

Notation "'let*' x ':=' c 'in' k" := (bind c (fun x => k))
  (at level 10, x name, c at level 100, k at level 200).
Notation "c ';;' k" := (bind c (fun _ => k))
  (at level 100, k at level 200, right associativity).

(** ** The script *)

Record Config : Type := {
  GOOGLE_SHEET_ID : jsstring;
  YANDEX_DISK_FOLDER : jsstring
}.

(** [process.env.K || ''] *)
Definition env_or_empty (penv : gmap string jsstring) (k : string) : jsstring :=
  match penv !! k with
  | Some s => if truthy (JStr s) then s else []
  | None => []
  end.

Definition CONFIG (penv : gmap string jsstring) : Config :=
  {| GOOGLE_SHEET_ID := env_or_empty penv "GOOGLE_SHEET_ID";
     YANDEX_DISK_FOLDER := env_or_empty penv "YANDEX_DISK_FOLDER" |}.

(** [!s] for a string *)
Definition not_string (s : jsstring) : bool := negb (truthy (JStr s)).

Definition getSampleData : list Entity :=
  [ {| id := utf16 "anna_ivanova";
       name := utf16 "Анна Иванова";
       height := JStr (utf16 "175");
       measurements := JStr (utf16 "88-60-90");
       city := JStr (utf16 "Москва");
       category := JStr (utf16 "fashion");
       is_available := true;
       bio := JStr (utf16 "Опыт работы 3 года. Участвовала в показах Mercedes-Benz Fashion Week.");
       photos := [ utf16 "https://picsum.photos/id/1005/800/1000";
                   utf16 "https://picsum.photos/id/1011/800/1000" ] |};
    {| id := utf16 "maria_petrova";
       name := utf16 "Мария Петрова";
       height := JStr (utf16 "168");
       measurements := JUndefined;
       city := JStr (utf16 "Санкт-Петербург");
       category := JStr (utf16 "commercial");
       is_available := true;
       bio := JStr (utf16 "Специализация: рекламные съемки, каталоги.");
       photos := [ utf16 "https://picsum.photos/id/1025/800/1000";
                   utf16 "https://picsum.photos/id/1027/800/1000" ] |} ].

(** The callback of [rows.map]: one row to one model object. *)
Definition rowToModel (row : Row) : Entity :=
  let model :=
    {| id := trim (JS.String (js_or (js_or (prop row "id") (prop row "ID")) (JStr [])));
       name := trim (JS.String (js_or (js_or (prop row "name") (prop row "Name")) (JStr [])));
       height := js_or (js_or (prop row "height") (prop row "Height")) (JStr []);
       measurements :=
         js_or (js_or (prop row "measurements") (prop row "Measurements")) (JStr []);
       city := js_or (js_or (prop row "city") (prop row "City")) (JStr []);
       category := js_or (js_or (prop row "category") (prop row "Category")) (JStr []);
       bio := js_or (js_or (prop row "bio") (prop row "Bio")) (JStr []);
       is_available :=
         negb (strict_eq (prop row "is_available") (JStr (utf16 "false"))
               || strict_eq (prop row "available") (JStr (utf16 "false")));
       photos := [] |} in
  if truthy (js_or (prop row "photos") (prop row "Photos")) then
    let photos :=
      List.filter (fun p => truthy (JStr p))
        (List.map trim
           (split 44 (JS.String (js_or (js_or (prop row "photos") (prop row "Photos"))
                                       (JStr []))))) in
    if (0 <? length photos)%nat then set_photos model photos else model
  else model.

(** The callback of [.filter]: [model.id && model.name] *)
Definition keepModel (model : Entity) : bool :=
  truthy (JStr (id model)) && truthy (JStr (name model)).

Definition getModelsFromGoogleSheets (env : Env) : outcome (list Entity) :=
  let cfg := CONFIG (process_env env) in
  if not_string (GOOGLE_SHEET_ID cfg) then Return getSampleData
  else
    let body :=
      match parseServiceAccount (sheets env)
              (process_env env !! "GOOGLE_SERVICE_ACCOUNT_JSON") with
      | Throw e => Throw e
      | Return _ =>
        match useServiceAccountAuth (sheets env) with
        | Throw e => Throw e
        | Return _ =>
          match loadInfo (sheets env) with
          | Throw e => Throw e
          | Return _ =>
            match getRows (sheets env) with
            | Throw e => Throw e
            | Return rows => Return (List.filter keepModel (List.map rowToModel rows))
            end
          end
        end
      end in
    match body with
    | Return models => Return models
    | Throw _ => Return getSampleData
    end.

(** [Math.random()] *)
Definition random (env : Env) : M float64 :=
  fun w => (Return (Math_random env (random_calls w)),
            {| random_calls := S (random_calls w);
               dir_exists := dir_exists w; file := file w |}).

(** [`https://picsum.photos/id/${n}/800/1000`] *)
Definition placeholder_url (n : number) : jsstring :=
  utf16 "https://picsum.photos/id/" ++ Number_toString n ++ utf16 "/800/1000".

Definition getPhotosForModel (env : Env) (modelId : jsstring) : M (list jsstring) :=
  let cfg := CONFIG (process_env env) in
  if not_string (YANDEX_DISK_FOLDER cfg) then
    let* r1 := random env in
    let* r2 := random env in
    ret [ placeholder_url (Math_floor (Number_multiply r1 thousand));
          placeholder_url (Math_floor (Number_multiply r2 thousand)) ]
  else ret [].

(** [fs.existsSync(dir)] *)
Definition existsSync : M bool := fun w => (Return (dir_exists w), w).

(** [fs.mkdirSync(dir, { recursive: true })] *)
Definition do_mkdirSync (env : Env) : M unit :=
  fun w => match mkdirSync env with
           | Return _ =>
             (Return tt, {| random_calls := random_calls w;
                            dir_exists := true; file := file w |})
           | Throw e => (Throw e, w)
           end.

(** [fs.writeFileSync(JSON_OUTPUT_PATH, JSON.stringify(models, null, 2),
    'utf8')]: the file is opened with flag 'w', which truncates it, and
    the text is written.  A failure to open leaves the file as it was; a
    failure after the open leaves it empty or cut short. *)
Definition do_writeFileSync (env : Env) (models : list Entity) : M unit :=
  fun w => match writeFileSync env with
           | Return _ =>
             (Return tt, {| random_calls := random_calls w;
                            dir_exists := dir_exists w; file := Some models |})
           | Throw e =>
             (Throw e,
              if writeFileSync_opened env
              then {| random_calls := random_calls w;
                      dir_exists := dir_exists w; file := None |}
              else w)
           end.

Definition saveModelsToJSON (env : Env) (models : list Entity) : M unit :=
  let* there := existsSync in
  (if negb there then do_mkdirSync env else ret tt);;
  do_writeFileSync env models.

(** The body of the [for] loop of [syncModels], for [models[i]]. *)
Definition syncModels_step (env : Env) (model : Entity) : M Entity :=
  if negb (truthy_array (photos model)) || (length (photos model) =? 0)%nat then
    let* ps := getPhotosForModel env (id model) in
    if (0 <? length ps)%nat then ret (set_photos model ps) else ret model
  else ret model.

(** The [for] loop, over the array in index order. *)
Fixpoint syncModels_loop (env : Env) (models : list Entity) : M (list Entity) :=
  match models with
  | [] => ret []
  | model :: rest =>
    let* model' := syncModels_step env model in
    let* rest' := syncModels_loop env rest in
    ret (model' :: rest')
  end.

Definition computeStats (models : list Entity) (now : jsstring) : Stats :=
  {| totalModels := length models;
     modelsWithPhotos :=
       length (List.filter
                 (fun m => truthy_array (photos m) && (0 <? length (photos m))%nat)
                 models);
     totalPhotos :=
       fold_left
         (fun sum m => (sum + (if truthy_array (photos m) then length (photos m) else 0))%nat)
         models 0%nat;
     timestamp := now |}.

Definition syncModels (env : Env) : M Result :=
  try_catch
    (let* models := lift (getModelsFromGoogleSheets env) in
     let* models := syncModels_loop env models in
     saveModelsToJSON env models;;
     ret {| success := true;
            stats := computeStats models (Date_toISOString env) |})
    (fun error => throw error).

(** ** Auxiliary notions for the proofs *)

(** Twice the part of the original mantissa accounted for after [k]
    right shifts: the kept bits and the round bit. *)
Definition half_weight (mrs : shr_record) (k : Z) : Z :=
  2 * shr_m mrs * 2 ^ k + (if shr_r mrs then 2 ^ k else 0).

(** A binary64 value that is non-negative and strictly below 1000. *)
Definition below_1000 (x : spec_float) : Prop :=
  match x with
  | S754_zero _ => True
  | S754_finite false m e => e < 0 /\ Zpos m < 1000 * 2 ^ (- e)
  | _ => False
  end.

(** No whitespace at either end. *)
Definition is_trimmed (s : jsstring) : Prop :=
  (forall c, head s = Some c -> is_whitespace c = false) /\
  (forall c, last s = Some c -> is_whitespace c = false).

(** A descriptive field that holds a string without surrounding
    whitespace. *)
Definition string_field_trimmed (v : value) : Prop :=
  exists s, v = JStr s /\ is_trimmed s.

Definition all_string_fields_trimmed (e : Entity) : Prop :=
  is_trimmed (id e) /\ is_trimmed (name e) /\
  string_field_trimmed (height e) /\ string_field_trimmed (measurements e) /\
  string_field_trimmed (city e) /\ string_field_trimmed (category e) /\
  string_field_trimmed (bio e).

(** Some step of reading the live sheet throws. *)
Definition live_read_fails (env : Env) : Prop :=
  (exists e, parseServiceAccount (sheets env)
               (process_env env !! "GOOGLE_SERVICE_ACCOUNT_JSON") = Throw e) \/
  (exists e, useServiceAccountAuth (sheets env) = Throw e) \/
  (exists e, loadInfo (sheets env) = Throw e) \/
  (exists e, getRows (sheets env) = Throw e).

(** Every step of reading the live sheet succeeds, with these rows. *)
Definition live_read_succeeds (env : Env) (rows : list Row) : Prop :=
  parseServiceAccount (sheets env)
    (process_env env !! "GOOGLE_SERVICE_ACCOUNT_JSON") = Return tt /\
  useServiceAccountAuth (sheets env) = Return tt /\
  loadInfo (sheets env) = Return tt /\
  getRows (sheets env) = Return rows.

(** The output directory is there or can be made, and the file can be
    written. *)
Definition persistence_ok (env : Env) (w : World) : Prop :=
  (dir_exists w = true \/ mkdirSync env = Return tt) /\
  writeFileSync env = Return tt.

(** Making the missing directory, or writing the file, throws [e]. *)
Definition persistence_fails (env : Env) (w : World) (e : Error) : Prop :=
  (dir_exists w = false /\ mkdirSync env = Throw e) \/
  ((dir_exists w = true \/ mkdirSync env = Return tt) /\ writeFileSync env = Throw e).

(** ** Sample inputs *)

(** A provider that answers every call, with these rows. *)
Definition provider_serving (rows : list Row) : LiveSource :=
  {| parseServiceAccount := fun _ => Return tt;
     useServiceAccountAuth := Return tt;
     loadInfo := Return tt;
     getRows := Return rows |}.

(** A provider that rejects the service account. *)
Definition provider_rejecting : LiveSource :=
  {| parseServiceAccount := fun _ => Return tt;
     useServiceAccountAuth := Throw {| message := utf16 "invalid_grant" |};
     loadInfo := Return tt;
     getRows := Return [] |}.

(** A generator alternating between one half and the largest binary64
    value below one. *)
Definition alternating_random (i : nat) : float64 :=
  if Nat.even i then S754_finite false (2 ^ 52) (-53)
  else S754_finite false (2 ^ 53 - 1) (-53).

(** An environment whose file system accepts everything. *)
Definition env_with (penv : gmap string jsstring) (src : LiveSource) : Env :=
  {| process_env := penv; sheets := src;
     Math_random := alternating_random;
     mkdirSync := Return tt; writeFileSync := Return tt;
     writeFileSync_opened := false;
     Date_toISOString := utf16 "2024-01-01T00:00:00.000Z" |}.

(** An environment whose disk is full. *)
Definition env_disk_full : Env :=
  {| process_env := ∅; sheets := provider_serving [];
     Math_random := alternating_random;
     mkdirSync := Return tt;
     writeFileSync := Throw {| message := utf16 "ENOSPC" |};
     writeFileSync_opened := true;
     Date_toISOString := utf16 "2024-01-01T00:00:00.000Z" |}.

Definition fresh_world : World :=
  {| random_calls := 0; dir_exists := false; file := None |}.

Definition penv_sheet : gmap string jsstring :=
  {[ "GOOGLE_SHEET_ID" := utf16 "1AbC";
     "GOOGLE_SERVICE_ACCOUNT_JSON" := utf16 "eyJ0eXBlIjoic2VydmljZV9hY2NvdW50In0=" ]}.

Definition penv_folder : gmap string jsstring :=
  {[ "YANDEX_DISK_FOLDER" := utf16 "/models" ]}.

(** A row whose height cell is padded with spaces. *)
Definition row_padded : Row :=
  {[ "id" := JStr (utf16 " a1 "); "name" := JStr (utf16 "Anna");
     "height" := JStr (utf16 " 175 ") ]}.

(** An entity still without photos. *)
Definition model_without_photos : Entity :=
  {| id := utf16 "a1"; name := utf16 "Anna"; height := JStr (utf16 "175");
     measurements := JStr []; city := JStr []; category := JStr [];
     bio := JStr []; is_available := true; photos := [] |}.

(** An entity that has a photo. *)
Definition model_with_photo : Entity :=
  set_photos model_without_photos [utf16 "https://example.org/a1.jpg"].

(** Three entities with two, three and no photos. *)
Definition three_models : list Entity :=
  [ set_photos model_without_photos
      [utf16 "https://example.org/1.jpg"; utf16 "https://example.org/2.jpg"];
    set_photos model_without_photos
      [utf16 "https://example.org/3.jpg"; utf16 "https://example.org/4.jpg";
       utf16 "https://example.org/5.jpg"];
    model_without_photos ].

(** The number one as a binary64 value. *)
Definition one : float64 := S754_finite false (2 ^ 52) (-52).

(** ** The script as a program *)

(** The entry point, when the file is the main module:
    [syncModels().then(... process.exit(0)).catch(... process.exit(1))].
    The result is the exit status. *)
Definition main (env : Env) : World -> Z * World :=
  fun w => match syncModels env w with
           | (Return result, w') => (0, w')
           | (Throw error, w') => (1, w')
           end.

(** ** Further notions and inputs *)

(** Two model objects that differ at most in their photos. *)
Definition same_but_photos (m m' : Entity) : Prop :=
  id m' = id m /\ name m' = name m /\ height m' = height m /\
  measurements m' = measurements m /\ city m' = city m /\
  category m' = category m /\ bio m' = bio m /\
  is_available m' = is_available m.

(** The entities of a sequence that have no photo yet. *)
Definition without_photos (models : list Entity) : list Entity :=
  List.filter (fun m => (length (photos m) =? 0)%nat) models.

(** The binary64 quotient (2n+1)/2000, the middle of the n-th of the
    thousand equal parts of the unit interval. *)
Definition draw_for (n : Z) : float64 :=
  SFdiv prec emax (S754_finite false (Z.to_pos (2 * n + 1)) 0)
                  (S754_finite false 2000 0).

(** An environment given by its file system answers alone. *)
Definition env_fs (mk wr : outcome unit) : Env :=
  {| process_env := ∅; sheets := provider_serving [];
     Math_random := alternating_random;
     mkdirSync := mk; writeFileSync := wr;
     writeFileSync_opened := false;
     Date_toISOString := utf16 "2024-01-01T00:00:00.000Z" |}.

Definition world_with_dir : World :=
  {| random_calls := 0; dir_exists := true; file := None |}.

(** A row whose id cell holds only spaces, with a capitalised ID cell
    beside it. *)
Definition row_blank_id : Row :=
  {[ "id" := JStr (utf16 "   "); "ID" := JStr (utf16 "m7");
     "name" := JStr (utf16 "Olga") ]}.

(** A row with a photos column. *)
Definition row_with_photos : Row :=
  {[ "id" := JStr (utf16 "m7"); "name" := JStr (utf16 "Olga");
     "photos" := JStr (utf16 " a.jpg , ,b.jpg,") ]}.

(** The world [w] with another file system. *)
Definition with_fs (w : World) (d : bool) (f : option (list Entity)) : World :=
  {| random_calls := random_calls w; dir_exists := d; file := f |}.

(** The environment [env] with another answer of [mkdirSync]. *)
Definition with_mkdirSync (env : Env) (mk : outcome unit) : Env :=
  {| process_env := process_env env; sheets := sheets env;
     Math_random := Math_random env;
     mkdirSync := mk; writeFileSync := writeFileSync env;
     writeFileSync_opened := writeFileSync_opened env;
     Date_toISOString := Date_toISOString env |}.

(** The number written by a sequence of decimal digit characters. *)
Definition decimal_value (ds : jsstring) : Z :=
  fold_left (fun acc d => 10 * acc + (Z.of_N d - 48)) ds 0.

(** [ds] is the decimal numeral of [n]: digits '0' to '9' only, at least
    one, no leading zero unless the numeral is "0", and of value [n]. *)
Definition decimal_numeral (ds : jsstring) (n : Z) : Prop :=
  ds <> [] /\
  Forall (fun d => (48 <= d <= 57)%N) ds /\
  (head ds = Some 48%N -> ds = [48%N]) /\
  decimal_value ds = n.

(** * Properties *)

(** ** Binary64 rounding of [Math.random() * 1000] *)

Section Rounding.

Lemma iter_pos_nat {A} (f : A -> A) p : forall x,
  SpecFloat.iter_pos f p x = Nat.iter (Pos.to_nat p) f x.
Proof.
  induction p as [p IH|p IH|]; intros x; cbn [SpecFloat.iter_pos].
  - rewrite !IH, Pos2Nat.inj_xI.
    replace (S (2 * Pos.to_nat p))%nat with (Pos.to_nat p + (Pos.to_nat p + 1))%nat by lia.
    rewrite !Nat.iter_add. reflexivity.
  - rewrite !IH, Pos2Nat.inj_xO.
    replace (2 * Pos.to_nat p)%nat with (Pos.to_nat p + Pos.to_nat p)%nat by lia.
    rewrite Nat.iter_add. reflexivity.
  - reflexivity.
Qed.


Lemma shr_1_weight mrs k :
  0 <= k -> 0 <= shr_m mrs ->
  0 <= shr_m (shr_1 mrs) /\ half_weight (shr_1 mrs) (k + 1) = 2 * shr_m mrs * 2 ^ k.
Proof.
  intros Hk Hm. destruct mrs as [m r s]. unfold half_weight. cbn [shr_m] in *.
  rewrite Z.pow_add_r, Z.pow_1_r by lia.
  destruct m as [|[p|p|]|p]; cbn [shr_1 shr_m shr_r]; try lia.
Qed.

Lemma iter_shr_1_weight (k : nat) mrs :
  0 <= shr_m mrs ->
  0 <= shr_m (Nat.iter k shr_1 mrs) /\
  half_weight (Nat.iter k shr_1 mrs) (Z.of_nat k) <= half_weight mrs 0.
Proof.
  intros Hm. induction k as [|k [IH0 IH]].
  - cbn [Nat.iter]. split; [assumption|]. apply Z.le_refl.
  - rewrite !Nat.iter_succ.
    destruct (shr_1_weight (Nat.iter k shr_1 mrs) (Z.of_nat k)) as [H0 H1]; [lia|assumption|].
    split; [assumption|].
    replace (Z.of_nat (S k)) with (Z.of_nat k + 1) by lia. rewrite H1.
    unfold half_weight in IH |- *.
    assert (0 < 2 ^ Z.of_nat k) by (apply Z.pow_pos_nonneg; lia).
    destruct (shr_r (Nat.iter k shr_1 mrs)); lia.
Qed.

(* shr on an exact, non-negative mantissa: truncation with a round bit *)
Lemma shr_exact_bound m e n :
  0 <= m ->
  let '(mrs, e') := shr (shr_record_of_loc m loc_Exact) e n in
  0 <= shr_m mrs /\
  ((n <= 0 /\ e' = e /\ shr_m mrs = m /\ shr_r mrs = false /\ shr_s mrs = false) \/
   (0 < n /\ e' = e + n /\
    2 * shr_m mrs * 2 ^ n + (if shr_r mrs then 2 ^ n else 0) <= 2 * m)).
Proof.
  intros Hm. unfold shr. cbn [shr_record_of_loc].
  destruct n as [|p|p]; cbn [shr_m shr_r shr_s].
  - split; [assumption|]. left. repeat split; lia.
  - rewrite iter_pos_nat.
    destruct (iter_shr_1_weight (Pos.to_nat p) (Build_shr_record m false false)) as [H0 H1];
      [assumption|].
    split; [assumption|]. right. split; [lia|]. split; [reflexivity|].
    rewrite positive_nat_Z in H1. unfold half_weight in H1. cbn [shr_m shr_r] in H1.
    rewrite Z.pow_0_r in H1. lia.
  - split; [assumption|]. left. repeat split; lia.
Qed.

Lemma round_nearest_even_bound mrs :
  0 <= shr_m mrs ->
  let q := round_nearest_even (shr_m mrs) (loc_of_shr_record mrs) in
  shr_m mrs <= q <= shr_m mrs + (if shr_r mrs then 1 else 0).
Proof.
  intros Hm. destruct mrs as [m [|] [|]]; cbn; try destruct (Z.even m); lia.
Qed.

Lemma digits2_pos_size p : digits2_pos p = Pos.size p.
Proof. induction p; cbn; congruence. Qed.

Lemma Zdigits2_bounds p :
  2 ^ Zpos (digits2_pos p) <= 2 * Zpos p /\ Zpos p < 2 ^ Zpos (digits2_pos p).
Proof.
  rewrite digits2_pos_size. split.
  - pose proof (Pos.size_le p) as H.
    apply Pos2Z.pos_le_pos in H. rewrite Pos2Z.inj_pow in H.
    rewrite Pos2Z.inj_xO in H. exact H.
  - pose proof (Pos.size_gt p) as H.
    apply Pos2Z.pos_lt_pos in H. rewrite Pos2Z.inj_pow in H. exact H.
Qed.

Lemma pow2_split a n : 0 <= n <= a -> 2 ^ a = 2 ^ (a - n) * 2 ^ n.
Proof. intros H. rewrite <- Z.pow_add_r by lia. f_equal. lia. Qed.

Lemma round_up_below_1000 (m a n q : Z) :
  1 <= m < 2 ^ 53 -> m < 2 ^ a -> 0 < n <= a ->
  2 * q * 2 ^ n <= 2 * (m * (1000 * 2 ^ 43)) + 2 ^ n ->
  q < 1000 * 2 ^ (a + 43 - n).
Proof.
  intros Hm Ha Hn Hq.
  destruct (Z.lt_ge_cases q (1000 * 2 ^ (a + 43 - n))) as [|Hge]; [assumption|exfalso].
  assert (HN : 0 < 2 ^ n) by (apply Z.pow_pos_nonneg; lia).
  assert (HNA : 2 ^ n <= 2 ^ a) by (apply Z.pow_le_mono_r; lia).
  assert (Hsplit : 2 ^ (a + 43 - n) * 2 ^ n = 2 ^ a * 2 ^ 43).
  { rewrite <- !Z.pow_add_r by lia. f_equal. lia. }
  assert (Hbig : 1000 * (2 ^ a * 2 ^ 43) <= q * 2 ^ n).
  { rewrite <- Hsplit. rewrite Z.mul_assoc. apply Z.mul_le_mono_nonneg_r; lia. }
  change (2 ^ 43) with 8796093022208 in *.
  change (2 ^ 53) with 9007199254740992 in *.
  destruct (Z.le_gt_cases a 53) as [Hs|Hl].
  - assert (2 ^ a <= 2 ^ 53) by (apply Z.pow_le_mono_r; lia).
    change (2 ^ 53) with 9007199254740992 in *. lia.
  - assert (2 ^ 54 <= 2 ^ a) by (apply Z.pow_le_mono_r; lia).
    change (2 ^ 54) with 18014398509481984 in *. lia.
Qed.

Lemma digits_le_of_lt (q k : Z) : 0 <= q < 2 ^ k -> 0 <= k -> Zdigits2 q <= k.
Proof.
  intros [H0 Hq] Hk. destruct q as [|p|p]; cbn [Zdigits2]; try lia.
  destruct (Zdigits2_bounds p) as [Hlo _].
  destruct (Z.le_gt_cases (Zpos (digits2_pos p)) k) as [|Hgt]; [assumption|exfalso].
  assert (2 ^ (k + 1) <= 2 ^ Zpos (digits2_pos p)) by (apply Z.pow_le_mono_r; lia).
  rewrite Z.pow_add_r, Z.pow_1_r in H by lia. lia.
Qed.


Lemma mul_1000_below (m : positive) (ex : Z) :
  Zpos m < 2 ^ 53 -> ex < 0 -> Zpos m < 2 ^ (- ex) ->
  below_1000 (binary_round_aux prec emax false
                (Zpos (m * (1000 * 2 ^ 43))) (ex + -43) loc_Exact).
Proof.
  intros Hm Hex Hlt.
  set (a := - ex) in *. assert (Ha : 0 < a) by lia.
  replace (ex + -43) with (- (a + 43)) by lia.
  set (P := Zpos (m * (1000 * 2 ^ 43))).
  assert (HP : P = Zpos m * (1000 * 2 ^ 43)) by reflexivity.
  assert (HA : 0 < 2 ^ a) by (apply Z.pow_pos_nonneg; lia).
  assert (HPlt : P < 1000 * 2 ^ (a + 43)).
  { rewrite HP, Z.pow_add_r by lia. nia. }
  assert (HPd : Zdigits2 P <= a + 53).
  { apply digits_le_of_lt; [|lia]. split; [unfold P; lia|].
    replace (a + 53) with (a + 43 + 10) by lia. rewrite (Z.pow_add_r _ (a + 43)) by lia.
    change (2 ^ 10) with 1024. assert (0 < 2 ^ (a + 43)) by (apply Z.pow_pos_nonneg; lia). lia. }
  unfold binary_round_aux, shr_fexp.
  set (n1 := fexp prec emax (Zdigits2 P + - (a + 43)) - - (a + 43)).
  assert (Hn1 : n1 <= a) by (unfold n1, fexp, SpecFloat.emin, prec, emax; lia).
  pose proof (shr_exact_bound P (- (a + 43)) n1 ltac:(unfold P; lia)) as H1.
  destruct (shr (shr_record_of_loc P loc_Exact) (- (a + 43)) n1) as [mrs' e'].
  destruct H1 as [Hq0 H1].
  pose proof (round_nearest_even_bound mrs' Hq0) as Hr. cbv zeta in Hr.
  set (q' := round_nearest_even (shr_m mrs') (loc_of_shr_record mrs')) in *.
  assert (He' : e' <= -43 /\ q' < 1000 * 2 ^ (- e')).
  { destruct H1 as [(Hn & -> & Hm' & Hr' & _)|(Hn & -> & Hw)].
    - rewrite Hr' in Hr. split; [lia|].
      replace (- - (a + 43)) with (a + 43) by lia. lia.
    - split; [unfold n1, fexp, SpecFloat.emin, prec, emax; lia|].
      replace (- (- (a + 43) + n1)) with (a + 43 - n1) by lia.
      apply (round_up_below_1000 (Zpos m) a n1 q'); try lia.
      rewrite <- HP.
      assert (0 < 2 ^ n1) by (apply Z.pow_pos_nonneg; lia).
      destruct (shr_r mrs'); nia. }
  destruct He' as [He' Hq'].
  assert (Hq'0 : 0 <= q') by lia.
  assert (Hq'd : Zdigits2 q' <= 10 - e').
  { apply digits_le_of_lt; [|lia]. split; [assumption|].
    replace (10 - e') with (10 + - e') by lia. rewrite Z.pow_add_r by lia.
    change (2 ^ 10) with 1024. assert (0 < 2 ^ (- e')) by (apply Z.pow_pos_nonneg; lia). lia. }
  set (n2 := fexp prec emax (Zdigits2 q' + e') - e').
  pose proof (shr_exact_bound q' e' n2 Hq'0) as H2.
  destruct (shr (shr_record_of_loc q' loc_Exact) e' n2) as [mrs'' e''].
  destruct H2 as [Hm0 H2].
  assert (He'' : e'' <= -43 /\ shr_m mrs'' < 1000 * 2 ^ (- e'')).
  { destruct H2 as [(Hn & -> & -> & _)|(Hn & -> & Hw)].
    - split; assumption.
    - assert (Hf : e' + n2 <= -43) by (unfold n2, fexp, SpecFloat.emin, prec, emax; lia).
      split; [assumption|].
      assert (HN : 0 < 2 ^ n2) by (apply Z.pow_pos_nonneg; lia).
      assert (Hs : 2 ^ (- e') = 2 ^ (- (e' + n2)) * 2 ^ n2).
      { rewrite <- Z.pow_add_r by lia. f_equal. lia. }
      rewrite Hs in Hq'.
      assert (shr_m mrs'' * 2 ^ n2 <= q') by (destruct (shr_r mrs''); lia).
      nia. }
  destruct He'' as [He'' Hm''].
  destruct (shr_m mrs'') as [|p|p]; cbn [below_1000]; [exact I| |lia].
  replace (e'' <=? emax - prec) with true
    by (symmetry; apply Z.leb_le; unfold emax, prec; lia).
  cbn [below_1000]. split; [lia|assumption].
Qed.

Lemma random_draw_mantissa m e :
  is_random_draw (S754_finite false m e) = true ->
  Zpos m < 2 ^ 53 /\ e < 0 /\ Zpos m < 2 ^ (- e).
Proof.
  unfold is_random_draw. cbn [valid_binary].
  unfold bounded, canonical_mantissa, fexp, SpecFloat.emin, prec, emax.
  rewrite !andb_true_iff, Z.eqb_eq, Z.leb_le, !Z.ltb_lt.
  intros [[Hc _] [He Hm]]. split; [|split; assumption].
  destruct (Zdigits2_bounds m) as [_ Hhi].
  assert (2 ^ Zpos (digits2_pos m) <= 2 ^ 53) by (apply Z.pow_le_mono_r; lia).
  lia.
Qed.

Lemma floor_below_1000 x :
  below_1000 x -> exists n, Math_floor x = NInt n /\ 0 <= n <= 999.
Proof.
  destruct x as [s|s| |[|] m e]; cbn [below_1000 Math_floor]; try contradiction.
  - intros _. exists 0. split; [reflexivity|lia].
  - intros [He Hm]. eexists. split; [reflexivity|]. cbn [cond_Zopp].
    rewrite Z.shiftl_div_pow2 by lia.
    assert (0 < 2 ^ (- e)) by (apply Z.pow_pos_nonneg; lia).
    split.
    + apply Z.div_pos; lia.
    + apply Z.lt_succ_r. apply Z.div_lt_upper_bound; lia.
Qed.

(** [Math.floor(Math.random() * 1000)] is an integer between 0 and 999. *)
Lemma floor_random_range r :
  is_random_draw r = true ->
  exists n, Math_floor (Number_multiply r thousand) = NInt n /\ 0 <= n <= 999.
Proof.
  intros Hr. apply floor_below_1000.
  destruct r as [[|]|s| |[|] m e];
    try (unfold is_random_draw in Hr; rewrite andb_false_r in Hr; discriminate Hr).
  - exact I.
  - destruct (random_draw_mantissa m e Hr) as (Hm & He & Hlt).
    unfold Number_multiply, thousand. cbn [SFmul xorb].
    apply mul_1000_below; assumption.
Qed.

(** [is_random_draw] is the order of binary64 values: a valid value of
    positive sign is a draw exactly when it compares below one. *)
Lemma is_random_draw_spec r :
  is_random_draw r = true <->
  valid_binary prec emax r = true /\
  SFleb (S754_zero false) r = true /\ SFltb r one = true /\
  r <> S754_zero true.
Proof.
  unfold is_random_draw, one. rewrite andb_true_iff.
  destruct r as [[|]|[|]| |[|] m e]; cbn [valid_binary SFleb SFltb SFcompare].
  - split; [intros [_ H]; discriminate H|intros (_ & _ & _ & H); contradiction].
  - split; [intros _; repeat split; discriminate|auto].
  - split; [intros [_ H]|intros (_ & H & _)]; discriminate H.
  - split; [intros [_ H]|intros (_ & _ & H & _)]; discriminate H.
  - split; [intros [_ H]|intros (_ & H & _)]; discriminate H.
  - split; [intros [_ H]|intros (_ & H & _)]; discriminate H.
  - unfold bounded, canonical_mantissa, fexp, SpecFloat.emin, prec, emax.
    rewrite !andb_true_iff, Z.eqb_eq, Z.leb_le, !Z.ltb_lt.
    destruct (Zdigits2_bounds m) as [Hlo Hhi].
    set (d := Zpos (digits2_pos m)) in *.
    split.
    + intros [[Hc Hb] [He Hm]]. split; [auto|]. split; [reflexivity|].
      split; [|discriminate].
      assert (e < -52).
      { destruct (Z.lt_ge_cases e (-52)) as [|Hge]; [assumption|exfalso].
        assert (2 ^ (- e) <= 2 ^ 52) by (apply Z.pow_le_mono_r; lia).
        assert (d <= 52).
        { destruct (Z.le_gt_cases d 52) as [|Hgt]; [assumption|exfalso].
          assert (2 ^ 53 <= 2 ^ d) by (apply Z.pow_le_mono_r; lia).
          change (2 ^ 53) with (2 * 2 ^ 52) in *. lia. }
        lia. }
      destruct (e ?= -52) eqn:Hcmp; try reflexivity.
      * apply Z.compare_eq in Hcmp. lia.
      * apply Z.compare_gt_iff in Hcmp. lia.
    + intros ([Hc Hb] & _ & Hlt & _). split; [auto|].
      assert (He : e < -52).
      { destruct (e ?= -52) eqn:Hcmp.
        - apply Z.compare_eq in Hcmp. subst e. exfalso.
          assert (Hd : d = 53) by lia.
          destruct (Pos.compare_cont Eq m (2 ^ 52)) eqn:Hm; try discriminate Hlt.
          assert (Hm' : (m < 2 ^ 52)%positive) by exact Hm.
          apply Pos2Z.pos_lt_pos in Hm'.
          rewrite Hd in Hlo.
          replace (Zpos (2 ^ 52)) with 4503599627370496 in Hm' by (vm_compute; reflexivity).
          replace (2 ^ 53) with 9007199254740992 in Hlo by (vm_compute; reflexivity).
          lia.
        - apply Z.compare_lt_iff in Hcmp. exact Hcmp.
        - discriminate Hlt. }
      split; [lia|].
      assert (2 ^ d <= 2 ^ 53) by (apply Z.pow_le_mono_r; lia).
      assert (2 ^ 53 <= 2 ^ (- e)) by (apply Z.pow_le_mono_r; lia).
      lia.
Qed.

Example floor_of_largest_draw :
  Math_floor (Number_multiply (S754_finite false (2 ^ 53 - 1) (-53)) thousand) = NInt 999.
Proof. vm_compute. reflexivity. Qed.

Example floor_of_one_half :
  Math_floor (Number_multiply (S754_finite false (2 ^ 52) (-53)) thousand) = NInt 500.
Proof. vm_compute. reflexivity. Qed.

Example thousand_is_binary64 : valid_binary prec emax thousand = true.
Proof. reflexivity. Qed.

End Rounding.

(** ** The monad and the loop *)

Section Run.

Variable env : Env.

Lemma getPhotosForModel_folder modelId w :
  YANDEX_DISK_FOLDER (CONFIG (process_env env)) <> [] ->
  getPhotosForModel env modelId w = (Return [], w).
Proof.
  intros H. unfold getPhotosForModel, not_string. cbn [truthy].
  rewrite bool_decide_eq_false_2 by exact H. reflexivity.
Qed.

Lemma getPhotosForModel_placeholder modelId w :
  YANDEX_DISK_FOLDER (CONFIG (process_env env)) = [] ->
  getPhotosForModel env modelId w =
  (Return
     [ placeholder_url
         (Math_floor (Number_multiply (Math_random env (random_calls w)) thousand));
       placeholder_url
         (Math_floor (Number_multiply (Math_random env (S (random_calls w))) thousand)) ],
   {| random_calls := S (S (random_calls w));
      dir_exists := dir_exists w; file := file w |}).
Proof.
  intros H. unfold getPhotosForModel, not_string. cbn [truthy].
  rewrite H, bool_decide_eq_true_2 by reflexivity. reflexivity.
Qed.

Lemma getPhotosForModel_total modelId w :
  exists ps w', getPhotosForModel env modelId w = (Return ps, w') /\
                dir_exists w' = dir_exists w /\ file w' = file w.
Proof.
  destruct (decide (YANDEX_DISK_FOLDER (CONFIG (process_env env)) = [])) as [H|H].
  - rewrite getPhotosForModel_placeholder by exact H. eauto.
  - rewrite getPhotosForModel_folder by exact H. eauto.
Qed.

Lemma syncModels_step_populated model w :
  photos model <> [] -> syncModels_step env model w = (Return model, w).
Proof.
  intros H. unfold syncModels_step, truthy_array.
  destruct (photos model) as [|p ps]; [contradiction|reflexivity].
Qed.

Lemma syncModels_step_total model w :
  exists model' w', syncModels_step env model w = (Return model', w') /\
                    dir_exists w' = dir_exists w /\ file w' = file w.
Proof.
  unfold syncModels_step.
  destruct (negb (truthy_array (photos model)) || (length (photos model) =? 0)%nat).
  - unfold bind.
    destruct (getPhotosForModel_total (id model) w) as (ps & w' & -> & Hd & Hf).
    destruct (0 <? length ps)%nat; unfold ret; eauto.
  - unfold ret. eauto.
Qed.

Lemma syncModels_loop_total models : forall w,
  exists models' w', syncModels_loop env models w = (Return models', w') /\
                     dir_exists w' = dir_exists w /\ file w' = file w.
Proof.
  induction models as [|model rest IH]; intros w; cbn [syncModels_loop].
  - unfold ret. eauto.
  - unfold bind at 1.
    destruct (syncModels_step_total model w) as (m' & w1 & -> & Hd1 & Hf1).
    unfold bind at 1.
    destruct (IH w1) as (rest' & w2 & -> & Hd2 & Hf2).
    unfold ret. do 2 eexists. split; [reflexivity|]. split; congruence.
Qed.

(** A loop over entities that all have photos changes nothing. *)
Lemma syncModels_loop_populated models : forall w,
  Forall (fun m => photos m <> []) models ->
  syncModels_loop env models w = (Return models, w).
Proof.
  induction models as [|model rest IH]; intros w H; cbn [syncModels_loop].
  - reflexivity.
  - inversion H as [|? ? Hm Hrest]; subst.
    unfold bind at 1. rewrite syncModels_step_populated by exact Hm.
    unfold bind at 1. rewrite IH by exact Hrest. reflexivity.
Qed.

(** With a photo folder configured the loop changes nothing either. *)
Lemma syncModels_loop_folder models : forall w,
  YANDEX_DISK_FOLDER (CONFIG (process_env env)) <> [] ->
  syncModels_loop env models w = (Return models, w).
Proof.
  intros w Hcfg. revert w.
  induction models as [|model rest IH]; intros w; cbn [syncModels_loop].
  - reflexivity.
  - unfold bind at 1, syncModels_step.
    destruct (negb (truthy_array (photos model)) || (length (photos model) =? 0)%nat).
    + unfold bind at 1. rewrite getPhotosForModel_folder by exact Hcfg.
      cbn [length Nat.ltb Nat.leb]. unfold ret at 1.
      unfold bind at 1. rewrite IH. reflexivity.
    + unfold ret at 1. unfold bind at 1. rewrite IH. reflexivity.
Qed.

Lemma saveModelsToJSON_ok models w :
  persistence_ok env w ->
  exists w', saveModelsToJSON env models w = (Return tt, w') /\
             file w' = Some models /\ random_calls w' = random_calls w.
Proof.
  intros [Hdir Hwrite]. unfold saveModelsToJSON, bind, existsSync.
  destruct (dir_exists w) eqn:Hd; cbn [negb].
  - unfold ret, do_writeFileSync. rewrite Hwrite. eauto.
  - destruct Hdir as [Hdir|Hmk]; [discriminate|].
    unfold do_mkdirSync. rewrite Hmk. unfold do_writeFileSync. rewrite Hwrite.
    cbn [file random_calls]. eauto.
Qed.

Lemma saveModelsToJSON_fails models w e :
  persistence_fails env w e ->
  exists w', saveModelsToJSON env models w = (Throw e, w') /\
             (file w' = file w \/ file w' = None).
Proof.
  intros H. unfold saveModelsToJSON, bind, existsSync.
  destruct H as [[Hd Hmk]|[Hdir Hwrite]].
  - rewrite Hd. cbn [negb]. unfold do_mkdirSync. rewrite Hmk. eauto.
  - destruct (dir_exists w) eqn:Hd; cbn [negb].
    + unfold ret, do_writeFileSync. rewrite Hwrite.
      destruct (writeFileSync_opened env); eauto.
    + destruct Hdir as [Hdir|Hmk]; [discriminate|].
      unfold do_mkdirSync. rewrite Hmk. unfold do_writeFileSync. rewrite Hwrite.
      destruct (writeFileSync_opened env); cbn [file]; eauto.
Qed.

Lemma saveModelsToJSON_written models w w' :
  saveModelsToJSON env models w = (Return tt, w') -> file w' = Some models.
Proof.
  unfold saveModelsToJSON, bind, existsSync, do_mkdirSync, do_writeFileSync, ret.
  destruct (dir_exists w); cbn [negb];
    destruct (mkdirSync env); destruct (writeFileSync env);
    intros H; inversion H; reflexivity.
Qed.

(** The source reader always returns; it never throws. *)
Lemma getModelsFromGoogleSheets_total :
  exists models, getModelsFromGoogleSheets env = Return models.
Proof.
  unfold getModelsFromGoogleSheets.
  destruct (not_string _); [eauto|].
  destruct (parseServiceAccount _ _); [|eauto].
  destruct (useServiceAccountAuth _); [|eauto].
  destruct (loadInfo _); [|eauto].
  destruct (getRows _); eauto.
Qed.

(** The run, step by step, once the reader's result is known. *)
Lemma syncModels_unfold models w :
  getModelsFromGoogleSheets env = Return models ->
  syncModels env w =
  match syncModels_loop env models w with
  | (Return models', w1) =>
    match saveModelsToJSON env models' w1 with
    | (Return _, w2) =>
      (Return {| success := true;
                 stats := computeStats models' (Date_toISOString env) |}, w2)
    | (Throw e, w2) => (Throw e, w2)
    end
  | (Throw e, w1) => (Throw e, w1)
  end.
Proof.
  intros H. unfold syncModels, try_catch, bind, lift. rewrite H.
  destruct (syncModels_loop env models w) as [[models'|e] w1]; [|reflexivity].
  destruct (saveModelsToJSON env models' w1) as [[u|e] w2]; reflexivity.
Qed.

(** A run whose loop changes nothing and whose persistence works. *)
Lemma syncModels_unchanged models w :
  getModelsFromGoogleSheets env = Return models ->
  syncModels_loop env models w = (Return models, w) ->
  persistence_ok env w ->
  exists w', syncModels env w =
             (Return {| success := true;
                        stats := computeStats models (Date_toISOString env) |}, w') /\
             file w' = Some models.
Proof.
  intros Hread Hloop Hok. rewrite (syncModels_unfold models w Hread), Hloop.
  destruct (saveModelsToJSON_ok models w Hok) as (w' & -> & Hf & _). eauto.
Qed.

End Run.

(** ** Trimming *)

Section Trim.

Lemma dropWhile_split {A} (p : A -> bool) (l : list A) :
  exists pre, l = pre ++ dropWhile p l /\ Forall (fun x => p x = true) pre.
Proof.
  induction l as [|x t (pre & Ht & Hpre)]; cbn [dropWhile].
  - exists []. split; [reflexivity|constructor].
  - destruct (p x) eqn:Hx.
    + exists (x :: pre). split; [cbn; congruence|constructor; assumption].
    + exists []. split; [reflexivity|constructor].
Qed.

Lemma dropWhile_head {A} (p : A -> bool) (l : list A) c :
  head (dropWhile p l) = Some c -> p c = false.
Proof.
  induction l as [|x t IH]; cbn [dropWhile]; [discriminate|].
  destruct (p x) eqn:Hx; [exact IH|]. cbn. intros [= <-]. exact Hx.
Qed.

Lemma last_rev_head {A} (l : list A) : last (rev l) = head l.
Proof. destruct l as [|x t]; [reflexivity|]. cbn [rev]. apply last_snoc. Qed.

Lemma head_rev_last {A} (l : list A) : head (rev l) = last l.
Proof. rewrite <- (rev_involutive l) at 2. symmetry. apply last_rev_head. Qed.

Lemma head_app_nonempty {A} (l r : list A) c : head l = Some c -> head (l ++ r) = Some c.
Proof. destruct l; [discriminate|intros H; exact H]. Qed.

(** The result of [trim] has no whitespace at either end. *)
Lemma trim_is_trimmed s : is_trimmed (trim s).
Proof.
  unfold trim, trimEnd, trimStart.
  set (t := dropWhile is_whitespace s).
  destruct (dropWhile_split is_whitespace (rev t)) as (pre & Hsplit & _).
  set (u := dropWhile is_whitespace (rev t)) in *.
  assert (Ht : t = rev u ++ rev pre).
  { rewrite <- rev_app_distr, <- Hsplit, rev_involutive. reflexivity. }
  split; intros c Hc.
  - apply (dropWhile_head is_whitespace s). fold t. rewrite Ht.
    apply head_app_nonempty. exact Hc.
  - rewrite last_rev_head in Hc. exact (dropWhile_head _ _ _ Hc).
Qed.

(** [trim] only removes whitespace, and only from the two ends. *)
Lemma trim_decompose s :
  exists l r, s = l ++ trim s ++ r /\
              Forall (fun c => is_whitespace c = true) l /\
              Forall (fun c => is_whitespace c = true) r.
Proof.
  unfold trim, trimEnd, trimStart.
  destruct (dropWhile_split is_whitespace s) as (l & Hl & Hlws).
  set (t := dropWhile is_whitespace s) in *.
  destruct (dropWhile_split is_whitespace (rev t)) as (pre & Hsplit & Hpre).
  exists l, (rev pre). split; [|split].
  - rewrite Hl at 1. f_equal.
    rewrite <- rev_app_distr, <- Hsplit, rev_involutive. reflexivity.
  - exact Hlws.
  - apply List.Forall_rev. exact Hpre.
Qed.

End Trim.

(** ** Rows *)

Section Rows.

Variable row : Row.

Lemma strict_eq_string v s : strict_eq v (JStr s) = true <-> v = JStr s.
Proof.
  destruct v as [| |b|x]; cbn [strict_eq]; try (split; intros; discriminate).
  unfold jsstring_eqb. rewrite bool_decide_eq_true. split; congruence.
Qed.

Lemma truthy_string s : truthy (JStr s) = true <-> s <> [].
Proof. cbn [truthy]. rewrite negb_true_iff, bool_decide_eq_false. reflexivity. Qed.

Lemma rowToModel_id :
  id (rowToModel row) =
  trim (JS.String (js_or (js_or (prop row "id") (prop row "ID")) (JStr []))).
Proof. unfold rowToModel. repeat case_match; reflexivity. Qed.

Lemma rowToModel_name :
  name (rowToModel row) =
  trim (JS.String (js_or (js_or (prop row "name") (prop row "Name")) (JStr []))).
Proof. unfold rowToModel. repeat case_match; reflexivity. Qed.

Lemma rowToModel_is_available :
  is_available (rowToModel row) =
  negb (strict_eq (prop row "is_available") (JStr (utf16 "false"))
        || strict_eq (prop row "available") (JStr (utf16 "false"))).
Proof. unfold rowToModel. repeat case_match; reflexivity. Qed.

Lemma rowToModel_descriptive :
  height (rowToModel row) = js_or (js_or (prop row "height") (prop row "Height")) (JStr []) /\
  measurements (rowToModel row) =
    js_or (js_or (prop row "measurements") (prop row "Measurements")) (JStr []) /\
  city (rowToModel row) = js_or (js_or (prop row "city") (prop row "City")) (JStr []) /\
  category (rowToModel row) =
    js_or (js_or (prop row "category") (prop row "Category")) (JStr []) /\
  bio (rowToModel row) = js_or (js_or (prop row "bio") (prop row "Bio")) (JStr []).
Proof. unfold rowToModel. repeat case_match; repeat split; reflexivity. Qed.

Lemma keepModel_spec (m : Entity) : keepModel m = true <-> id m <> [] /\ name m <> [].
Proof. unfold keepModel. rewrite andb_true_iff, !truthy_string. reflexivity. Qed.

End Rows.

Lemma js_or_absent a b :
  a = JUndefined -> b = JUndefined -> js_or (js_or a b) (JStr []) = JStr [].
Proof. intros -> ->. reflexivity. Qed.

Lemma js_or_first a b c : truthy a = true -> js_or (js_or a b) c = a.
Proof. intros H. unfold js_or. rewrite H, H. reflexivity. Qed.

Lemma getSampleData_populated :
  Forall (fun m => id m <> [] /\ name m <> [] /\ photos m <> []) getSampleData.
Proof.
  unfold getSampleData.
  repeat (apply List.Forall_cons;
            [repeat split; intros H; vm_compute in H; discriminate H|]).
  apply List.Forall_nil.
Qed.

Lemma getModelsFromGoogleSheets_offline env :
  GOOGLE_SHEET_ID (CONFIG (process_env env)) = [] ->
  getModelsFromGoogleSheets env = Return getSampleData.
Proof.
  intros H. unfold getModelsFromGoogleSheets, not_string. cbn [truthy].
  rewrite H, bool_decide_eq_true_2 by reflexivity. reflexivity.
Qed.

Lemma getModelsFromGoogleSheets_fallback env :
  live_read_fails env -> getModelsFromGoogleSheets env = Return getSampleData.
Proof.
  intros H. unfold getModelsFromGoogleSheets.
  destruct (not_string _); [reflexivity|].
  destruct (parseServiceAccount _ _) eqn:E1; [|reflexivity].
  destruct (useServiceAccountAuth _) eqn:E2; [|reflexivity].
  destruct (loadInfo _) eqn:E3; [|reflexivity].
  destruct (getRows _) eqn:E4; [|reflexivity].
  destruct H as [[e He]|[[e He]|[[e He]|[e He]]]]; congruence.
Qed.

Lemma getModelsFromGoogleSheets_live env rows :
  GOOGLE_SHEET_ID (CONFIG (process_env env)) <> [] ->
  live_read_succeeds env rows ->
  getModelsFromGoogleSheets env =
  Return (List.filter keepModel (List.map rowToModel rows)).
Proof.
  intros Hid (H1 & H2 & H3 & H4). unfold getModelsFromGoogleSheets, not_string.
  cbn [truthy]. rewrite bool_decide_eq_false_2 by exact Hid. cbn [negb].
  rewrite H1, H2, H3, H4. reflexivity.
Qed.

(** ** The code on concrete inputs *)

Example utf16_cyrillic : utf16 "Анна" = [1040; 1085; 1085; 1072]%N.
Proof. reflexivity. Qed.

Example trim_spaces_and_tab : trim (utf16 "  a b 	") = utf16 "a b".
Proof. reflexivity. Qed.

Example split_keeps_empty_tokens :
  split 44 (utf16 "x, y ,,") = [utf16 "x"; utf16 " y "; []; []].
Proof. reflexivity. Qed.

Example placeholder_url_7 :
  placeholder_url (NInt 7) = utf16 "https://picsum.photos/id/7/800/1000".
Proof. reflexivity. Qed.

Example rowToModel_row_padded :
  rowToModel row_padded =
  {| id := utf16 "a1"; name := utf16 "Anna"; height := JStr (utf16 " 175 ");
     measurements := JStr []; city := JStr []; category := JStr []; bio := JStr [];
     is_available := true; photos := [] |}.
Proof. vm_compute. reflexivity. Qed.

Example rowToModel_capitalised_headers :
  rowToModel {[ "ID" := JStr (utf16 "m7"); "Name" := JStr (utf16 " Olga ");
                "Photos" := JStr (utf16 "x, y ,,"); "available" := JStr (utf16 "false") ]} =
  {| id := utf16 "m7"; name := utf16 "Olga"; height := JStr [];
     measurements := JStr []; city := JStr []; category := JStr []; bio := JStr [];
     is_available := false; photos := [utf16 "x"; utf16 "y"] |}.
Proof. vm_compute. reflexivity. Qed.

Example is_available_boolean_false :
  is_available (rowToModel {[ "id" := JStr (utf16 "m7"); "is_available" := JBool false ]})
  = true.
Proof. vm_compute. reflexivity. Qed.

Example is_available_other_case :
  is_available (rowToModel {[ "id" := JStr (utf16 "m7");
                              "is_available" := JStr (utf16 "FALSE") ]})
  = true.
Proof. vm_compute. reflexivity. Qed.

Example whitespace_id_is_discarded :
  keepModel (rowToModel {[ "id" := JStr (utf16 "   "); "ID" := JStr (utf16 "m7");
                           "name" := JStr (utf16 "Olga") ]}) = false.
Proof. vm_compute. reflexivity. Qed.

Example syncModels_offline_run :
  syncModels (env_with ∅ (provider_serving [])) fresh_world =
  (Return {| success := true;
             stats := {| totalModels := 2; modelsWithPhotos := 2; totalPhotos := 4;
                         timestamp := utf16 "2024-01-01T00:00:00.000Z" |} |},
   {| random_calls := 0; dir_exists := true; file := Some getSampleData |}).
Proof. vm_compute. reflexivity. Qed.

Example syncModels_live_run_adds_placeholders :
  syncModels (env_with penv_sheet (provider_serving [row_padded; ∅])) fresh_world =
  (Return {| success := true;
             stats := {| totalModels := 1; modelsWithPhotos := 1; totalPhotos := 2;
                         timestamp := utf16 "2024-01-01T00:00:00.000Z" |} |},
   {| random_calls := 2; dir_exists := true;
      file := Some [ set_photos (rowToModel row_padded)
                       [ utf16 "https://picsum.photos/id/500/800/1000";
                         utf16 "https://picsum.photos/id/999/800/1000" ] ] |}).
Proof. vm_compute. reflexivity. Qed.

(** ** Statistics *)

Section Statistics.

Lemma fold_left_sum {A} (f : A -> nat) (l : list A) : forall a,
  fold_left (fun sum m => (sum + f m)%nat) l a = (a + list_sum (List.map f l))%nat.
Proof.
  induction l as [|x t IH]; intros a; simpl.
  - lia.
  - rewrite IH. lia.
Qed.

Lemma filter_map_length {A B} (f : A -> B) (p : B -> bool) (l : list A) :
  length (List.filter (fun x => p (f x)) l) = length (List.filter p (List.map f l)).
Proof.
  induction l as [|x t IH]; cbn [List.filter List.map]; [reflexivity|].
  destruct (p (f x)); cbn [length]; congruence.
Qed.

Lemma filter_length_perm {A} (p : A -> bool) (l l' : list A) :
  Permutation l l' -> length (List.filter p l) = length (List.filter p l').
Proof.
  induction 1 as [|x l l' _ IH|x y l|l l' l'' _ IH1 _ IH2]; cbn [List.filter].
  - reflexivity.
  - destruct (p x); cbn [length]; congruence.
  - destruct (p x), (p y); reflexivity.
  - congruence.
Qed.

Lemma list_sum_perm (l l' : list nat) : Permutation l l' -> list_sum l = list_sum l'.
Proof.
  induction 1 as [|x l l' _ IH|x y l|l l' l'' _ IH1 _ IH2]; simpl; lia.
Qed.

Lemma computeStats_spec models now :
  totalModels (computeStats models now) = length models /\
  modelsWithPhotos (computeStats models now) =
    length (List.filter (fun n => (0 <? n)%nat)
              (List.map (fun m => length (photos m)) models)) /\
  totalPhotos (computeStats models now) =
    list_sum (List.map (fun m => length (photos m)) models).
Proof.
  unfold computeStats, truthy_array.
  cbn [totalModels modelsWithPhotos totalPhotos andb].
  split; [reflexivity|]. split.
  - apply (filter_map_length (fun m => length (photos m)) (fun n => (0 <? n)%nat)).
  - apply (fold_left_sum (fun m => length (photos m))).
Qed.

End Statistics.

(** * Properties of the specification *)

(** C1. With a sheet identifier configured, an error thrown while reading
    the live sheet (decoding the service account, authenticating, loading
    the sheet information or reading the rows) does not leave the source
    reader: the reader returns the built-in sample data, and the run goes
    on to write that data and to return its statistics. *)
Theorem C1_live_read_error_falls_back (env : Env) :
  GOOGLE_SHEET_ID (CONFIG (process_env env)) <> [] ->
  live_read_fails env ->
  getModelsFromGoogleSheets env = Return getSampleData /\
  forall w, persistence_ok env w ->
    exists w',
      syncModels env w =
        (Return {| success := true;
                   stats := computeStats getSampleData (Date_toISOString env) |}, w') /\
      file w' = Some getSampleData.
Proof.
  intros _ Hfail.
  pose proof (getModelsFromGoogleSheets_fallback env Hfail) as Hread.
  split; [exact Hread|]. intros w Hok.
  apply syncModels_unchanged; [exact Hread| |exact Hok].
  apply syncModels_loop_populated.
  eapply Forall_impl; [exact getSampleData_populated|].
  intros m (_ & _ & H). exact H.
Qed.

Lemma C1_live_read_error_falls_back_witness :
  getModelsFromGoogleSheets (env_with penv_sheet provider_rejecting) =
    Return getSampleData /\
  forall w, persistence_ok (env_with penv_sheet provider_rejecting) w ->
    exists w',
      syncModels (env_with penv_sheet provider_rejecting) w =
        (Return {| success := true;
                   stats := computeStats getSampleData
                              (Date_toISOString (env_with penv_sheet provider_rejecting)) |},
         w') /\
      file w' = Some getSampleData.
Proof.
  apply (C1_live_read_error_falls_back (env_with penv_sheet provider_rejecting)).
  - intros H. vm_compute in H. discriminate H.
  - right. left. eexists. reflexivity.
Defined.

(** C2. The [is_available] field of a normalised row is [false] exactly
    when the row's [is_available] or [available] cell is the string
    "false"; every other input gives [true]: an absent cell, the string
    "true", any other string, [null], or the boolean [false]. *)
Theorem C2_is_available_false_iff_literal_false (row : Row) :
  (is_available (rowToModel row) = false <->
   prop row "is_available" = JStr (utf16 "false") \/
   prop row "available" = JStr (utf16 "false")) /\
  (is_available (rowToModel row) = true <->
   prop row "is_available" <> JStr (utf16 "false") /\
   prop row "available" <> JStr (utf16 "false")).
Proof.
  rewrite rowToModel_is_available, negb_false_iff, negb_true_iff.
  rewrite orb_true_iff, orb_false_iff, <- !not_true_iff_false.
  rewrite !strict_eq_string. split; reflexivity.
Qed.

(** C3. A row whose id or name is empty after trimming yields no entity:
    the source reader always returns a sequence whose entities all have a
    non-empty id and a non-empty name; on the live path the sequence holds
    exactly the normalised rows with both non-empty; and a row with the id
    (or the name) absent under both header aliases is among the
    discarded. *)
Theorem C3_rows_without_id_or_name_discarded (env : Env) :
  (exists models,
     getModelsFromGoogleSheets env = Return models /\
     Forall (fun m => id m <> [] /\ name m <> []) models) /\
  (forall rows,
     GOOGLE_SHEET_ID (CONFIG (process_env env)) <> [] ->
     live_read_succeeds env rows ->
     exists models,
       getModelsFromGoogleSheets env = Return models /\
       forall m, In m models <->
                 exists row, In row rows /\ m = rowToModel row /\
                             id m <> [] /\ name m <> []) /\
  (forall row,
     (prop row "id" = JUndefined /\ prop row "ID" = JUndefined) \/
     (prop row "name" = JUndefined /\ prop row "Name" = JUndefined) ->
     keepModel (rowToModel row) = false).
Proof.
  assert (Hlive : forall rows,
             Forall (fun m => id m <> [] /\ name m <> [])
               (List.filter keepModel (List.map rowToModel rows))).
  { intros rows. apply List.Forall_forall. intros m Hm.
    apply filter_In in Hm. apply keepModel_spec, Hm. }
  split; [|split].
  - unfold getModelsFromGoogleSheets.
    assert (Hsample : Forall (fun m => id m <> [] /\ name m <> []) getSampleData).
    { eapply Forall_impl; [exact getSampleData_populated|]. intros m (? & ? & _). auto. }
    destruct (not_string _); [eauto|].
    destruct (parseServiceAccount _ _); [|eauto].
    destruct (useServiceAccountAuth _); [|eauto].
    destruct (loadInfo _); [|eauto].
    destruct (getRows _) as [rows|]; eauto.
  - intros rows Hid Hok. eexists. split.
    + apply getModelsFromGoogleSheets_live; eassumption.
    + intros m. rewrite filter_In, in_map_iff, keepModel_spec. split.
      * intros [(row & <- & Hin) Hkeep]. exists row. auto.
      * intros (row & Hin & -> & Hkeep). split; [exists row; auto|exact Hkeep].
  - intros row H. apply not_true_iff_false. rewrite keepModel_spec.
    rewrite rowToModel_id, rowToModel_name.
    intros [Hi Hn].
    destruct H as [[H1 H2]|[H1 H2]]; rewrite H1, H2 in *;
      [apply Hi|apply Hn]; reflexivity.
Qed.

Lemma C3_rows_without_id_or_name_discarded_witness :
  exists models,
    getModelsFromGoogleSheets (env_with penv_sheet (provider_serving [row_padded; ∅])) =
      Return models /\
    forall m, In m models <->
              exists row, In row [row_padded; ∅] /\ m = rowToModel row /\
                          id m <> [] /\ name m <> [].
Proof.
  apply (proj1 (proj2 (C3_rows_without_id_or_name_discarded
                         (env_with penv_sheet (provider_serving [row_padded; ∅]))))).
  - intros H. vm_compute in H. discriminate H.
  - repeat split; reflexivity.
Defined.

(** C9, as stated, fails: the height cell " 175 " of [row_padded] reaches
    the entity with its spaces. *)
Lemma C9_all_fields_trimmed_counterexample :
  ~ all_string_fields_trimmed (rowToModel row_padded).
Proof.
  intros (_ & _ & (s & Hs & Hhead & _) & _).
  vm_compute in Hs. injection Hs as <-.
  specialize (Hhead 32%N eq_refl). discriminate Hhead.
Qed.

(** C9, amended. For every row, the id and the name of the normalised
    entity are the trimmed text of the first truthy cell among the two
    header aliases, so they carry no surrounding whitespace; height,
    measurements, city, category and bio are the first truthy cell among
    their two aliases taken as it is, without trimming; and a field absent
    under both aliases becomes the empty string. Normalising a row never
    fails. *)
Theorem C9_id_and_name_trimmed_others_verbatim (row : Row) :
  let e := rowToModel row in
  (is_trimmed (id e) /\ is_trimmed (name e)) /\
  (id e = trim (JS.String (js_or (js_or (prop row "id") (prop row "ID")) (JStr []))) /\
   name e = trim (JS.String (js_or (js_or (prop row "name") (prop row "Name")) (JStr [])))) /\
  (height e = js_or (js_or (prop row "height") (prop row "Height")) (JStr []) /\
   measurements e =
     js_or (js_or (prop row "measurements") (prop row "Measurements")) (JStr []) /\
   city e = js_or (js_or (prop row "city") (prop row "City")) (JStr []) /\
   category e = js_or (js_or (prop row "category") (prop row "Category")) (JStr []) /\
   bio e = js_or (js_or (prop row "bio") (prop row "Bio")) (JStr [])) /\
  ((prop row "id" = JUndefined -> prop row "ID" = JUndefined -> id e = []) /\
   (prop row "name" = JUndefined -> prop row "Name" = JUndefined -> name e = []) /\
   (prop row "height" = JUndefined -> prop row "Height" = JUndefined ->
    height e = JStr []) /\
   (prop row "measurements" = JUndefined -> prop row "Measurements" = JUndefined ->
    measurements e = JStr []) /\
   (prop row "city" = JUndefined -> prop row "City" = JUndefined -> city e = JStr []) /\
   (prop row "category" = JUndefined -> prop row "Category" = JUndefined ->
    category e = JStr []) /\
   (prop row "bio" = JUndefined -> prop row "Bio" = JUndefined -> bio e = JStr [])).
Proof.
  intros e. subst e.
  destruct (rowToModel_descriptive row) as (Hh & Hm & Hc & Hg & Hb).
  split; [|split; [|split]].
  - rewrite rowToModel_id, rowToModel_name. split; apply trim_is_trimmed.
  - split; [apply rowToModel_id|apply rowToModel_name].
  - auto.
  - rewrite rowToModel_id, rowToModel_name, Hh, Hm, Hc, Hg, Hb.
    repeat split; intros -> ->; reflexivity.
Qed.

Lemma C9_id_and_name_trimmed_others_verbatim_witness :
  height (rowToModel ∅) = JStr [].
Proof.
  apply (proj1 (proj2 (proj2 (proj2 (proj2 (proj2
           (C9_id_and_name_trimmed_others_verbatim ∅))))))); reflexivity.
Defined.

(** C5. The statistics of an entity sequence: [totalModels] is the number
    of entities, [modelsWithPhotos] the number of entities with at least
    one photo, [totalPhotos] the sum of the photo counts.  For three
    entities of which two have photos, two and three of them, the
    statistics are 3, 2 and 5.  A successful run returns the statistics of
    the sequence it has written. *)
Theorem C5_statistics (models : list Entity) (now : jsstring) :
  (totalModels (computeStats models now) = length models /\
   modelsWithPhotos (computeStats models now) =
     length (List.filter (fun n => (0 <? n)%nat)
               (List.map (fun m => length (photos m)) models)) /\
   totalPhotos (computeStats models now) =
     list_sum (List.map (fun m => length (photos m)) models) /\
   timestamp (computeStats models now) = now) /\
  (Permutation (List.map (fun m => length (photos m)) models) [2; 3; 0]%nat ->
   totalModels (computeStats models now) = 3%nat /\
   modelsWithPhotos (computeStats models now) = 2%nat /\
   totalPhotos (computeStats models now) = 5%nat) /\
  (forall env w r w',
     syncModels env w = (Return r, w') ->
     file w' = Some models ->
     success r = true /\ stats r = computeStats models (Date_toISOString env)).
Proof.
  destruct (computeStats_spec models now) as (Ht & Hw & Hp).
  split; [|split].
  - repeat split; assumption.
  - intros Hperm. rewrite Ht, Hw, Hp. repeat split.
    + rewrite <- (length_map (fun m => length (photos m))).
      apply (Permutation_length Hperm).
    + rewrite (filter_length_perm _ _ _ Hperm). reflexivity.
    + rewrite (list_sum_perm _ _ Hperm). reflexivity.
  - intros env w r w' Hrun Hfile.
    destruct (getModelsFromGoogleSheets_total env) as (read & Hread).
    rewrite (syncModels_unfold env read w Hread) in Hrun.
    destruct (syncModels_loop env read w) as [[models'|e] w1]; [|discriminate Hrun].
    destruct (saveModelsToJSON env models' w1) as [[[]|e] w2] eqn:Hsave;
      [|discriminate Hrun].
    apply saveModelsToJSON_written in Hsave.
    injection Hrun as <- <-. rewrite Hsave in Hfile. injection Hfile as ->.
    split; reflexivity.
Qed.

Lemma C5_statistics_witness :
  totalModels (computeStats three_models (utf16 "2024-01-01T00:00:00.000Z")) = 3%nat /\
  modelsWithPhotos (computeStats three_models (utf16 "2024-01-01T00:00:00.000Z")) = 2%nat /\
  totalPhotos (computeStats three_models (utf16 "2024-01-01T00:00:00.000Z")) = 5%nat.
Proof.
  apply (proj1 (proj2 (C5_statistics three_models (utf16 "2024-01-01T00:00:00.000Z")))).
  apply Permutation_refl.
Defined.

(** C6. An entity that already has photos goes through the photo step of
    the loop unchanged, without any effect on the world; running the step
    a second time on the result is the same as running it once. *)
Theorem C6_populated_entity_untouched (env : Env) (model : Entity) (w : World) :
  photos model <> [] ->
  syncModels_step env model w = (Return model, w) /\
  (let* once := syncModels_step env model in syncModels_step env once) w =
    syncModels_step env model w.
Proof.
  intros H. pose proof (syncModels_step_populated env model w H) as Hstep.
  split; [exact Hstep|]. unfold bind. rewrite Hstep. exact Hstep.
Qed.

Lemma C6_populated_entity_untouched_witness :
  syncModels_step (env_with ∅ (provider_serving [])) model_with_photo fresh_world =
    (Return model_with_photo, fresh_world) /\
  (let* once := syncModels_step (env_with ∅ (provider_serving [])) model_with_photo in
   syncModels_step (env_with ∅ (provider_serving [])) once) fresh_world =
    syncModels_step (env_with ∅ (provider_serving [])) model_with_photo fresh_world.
Proof.
  apply (C6_populated_entity_untouched
           (env_with ∅ (provider_serving [])) model_with_photo fresh_world).
  intros H. vm_compute in H. discriminate H.
Defined.

Lemma small_numerals_check :
  forallb (fun k =>
             let ds := Number_toString (NInt (Z.of_nat k)) in
             match ds with [] => false | _ => true end &&
             forallb (fun d => (48 <=? d)%N && (d <=? 57)%N) ds &&
             match ds with 48%N :: _ :: _ => false | _ => true end &&
             (decimal_value ds =? Z.of_nat k)) (seq 0 1000) = true.
Proof. vm_compute. reflexivity. Qed.

(** The text printed for an integer from 0 to 999 is its decimal
    numeral. *)
Lemma Number_toString_numeral n :
  0 <= n <= 999 -> decimal_numeral (Number_toString (NInt n)) n.
Proof.
  intros Hn. pose proof small_numerals_check as H. rewrite forallb_forall in H.
  specialize (H (Z.to_nat n)). rewrite Z2Nat.id in H by lia.
  assert (Hin : In (Z.to_nat n) (seq 0 1000)) by (apply in_seq; lia).
  apply H in Hin. clear H. cbv zeta in Hin.
  remember (Number_toString (NInt n)) as ds eqn:Eds. clear Eds.
  rewrite !andb_true_iff in Hin. destruct Hin as [[[Hne Hdig] Hlead] Hval].
  split; [|split; [|split]].
  - destruct ds; [discriminate Hne|discriminate].
  - apply List.Forall_forall. intros d Hd.
    rewrite forallb_forall in Hdig. specialize (Hdig d Hd).
    apply andb_true_iff in Hdig. destruct Hdig as [H1 H2].
    apply N.leb_le in H1. apply N.leb_le in H2. split; assumption.
  - destruct ds as [|d [|d' t]]; cbn [head]; intros Hh; try discriminate Hh.
    + injection Hh as ->. reflexivity.
    + injection Hh as ->. discriminate Hlead.
  - apply Z.eqb_eq. exact Hval.
Qed.

(** C4. Without a photo folder configured, an entity with no photos
    leaves the photo step with exactly two photos and nothing else
    changed; each photo is the text https://picsum.photos/id/N/800/1000
    where N is the decimal numeral of an integer between 0 and 999,
    whatever [Math.random] returns within its range. *)
Theorem C4_two_placeholder_photos (env : Env) (model : Entity) (w : World) :
  YANDEX_DISK_FOLDER (CONFIG (process_env env)) = [] ->
  photos model = [] ->
  (forall i, is_random_draw (Math_random env i) = true) ->
  exists n1 n2 d1 d2 model' w',
    syncModels_step env model w = (Return model', w') /\
    same_but_photos model model' /\
    photos model' =
      [ utf16 "https://picsum.photos/id/" ++ d1 ++ utf16 "/800/1000";
        utf16 "https://picsum.photos/id/" ++ d2 ++ utf16 "/800/1000" ] /\
    length (photos model') = 2%nat /\
    decimal_numeral d1 n1 /\ decimal_numeral d2 n2 /\
    0 <= n1 <= 999 /\ 0 <= n2 <= 999.
Proof.
  intros Hcfg Hempty Hrand.
  destruct (floor_random_range _ (Hrand (random_calls w))) as (n1 & E1 & R1).
  destruct (floor_random_range _ (Hrand (S (random_calls w)))) as (n2 & E2 & R2).
  exists n1, n2, (Number_toString (NInt n1)), (Number_toString (NInt n2)).
  exists (set_photos model [placeholder_url (NInt n1); placeholder_url (NInt n2)]).
  eexists. split; [|split; [|split; [|split]]].
  - unfold syncModels_step, truthy_array. rewrite Hempty.
    cbn [negb orb length Nat.eqb].
    unfold bind. rewrite (getPhotosForModel_placeholder env _ w Hcfg), E1, E2.
    reflexivity.
  - unfold same_but_photos. repeat split.
  - reflexivity.
  - reflexivity.
  - split; [apply Number_toString_numeral; exact R1|].
    split; [apply Number_toString_numeral; exact R2|]. split; assumption.
Qed.

Lemma C4_two_placeholder_photos_witness :
  exists n1 n2 d1 d2 model' w',
    syncModels_step (env_with ∅ (provider_serving [])) model_without_photos fresh_world =
      (Return model', w') /\
    same_but_photos model_without_photos model' /\
    photos model' =
      [ utf16 "https://picsum.photos/id/" ++ d1 ++ utf16 "/800/1000";
        utf16 "https://picsum.photos/id/" ++ d2 ++ utf16 "/800/1000" ] /\
    length (photos model') = 2%nat /\
    decimal_numeral d1 n1 /\ decimal_numeral d2 n2 /\
    0 <= n1 <= 999 /\ 0 <= n2 <= 999.
Proof.
  apply (C4_two_placeholder_photos
           (env_with ∅ (provider_serving [])) model_without_photos fresh_world).
  - reflexivity.
  - reflexivity.
  - intros i. unfold env_with, Math_random, alternating_random.
    destruct (Nat.even i); vm_compute; reflexivity.
Defined.

(** C7. With no sheet identifier configured, the source reader returns
    exactly the built-in sample data; the sample data has at least two
    entities, each with a non-empty id, a non-empty name and at least one
    photo; the photo loop leaves it unchanged, and the snapshot written by
    the run is the sample data. *)
Theorem C7_offline_run_is_sample_data (env : Env) :
  GOOGLE_SHEET_ID (CONFIG (process_env env)) = [] ->
  getModelsFromGoogleSheets env = Return getSampleData /\
  (2 <= length getSampleData)%nat /\
  Forall (fun m => id m <> [] /\ name m <> [] /\ photos m <> []) getSampleData /\
  (forall w, syncModels_loop env getSampleData w = (Return getSampleData, w)) /\
  (forall w, persistence_ok env w ->
     exists w',
       syncModels env w =
         (Return {| success := true;
                    stats := computeStats getSampleData (Date_toISOString env) |}, w') /\
       file w' = Some getSampleData).
Proof.
  intros Hcfg.
  pose proof (getModelsFromGoogleSheets_offline env Hcfg) as Hread.
  assert (Hloop : forall w, syncModels_loop env getSampleData w = (Return getSampleData, w)).
  { intros w. apply syncModels_loop_populated.
    eapply Forall_impl; [exact getSampleData_populated|].
    intros m (_ & _ & H). exact H. }
  split; [exact Hread|]. split; [cbn; lia|].
  split; [exact getSampleData_populated|]. split; [exact Hloop|].
  intros w Hok. apply syncModels_unchanged; [exact Hread|apply Hloop|exact Hok].
Qed.

Lemma C7_offline_run_is_sample_data_witness :
  getModelsFromGoogleSheets (env_with ∅ (provider_serving [])) = Return getSampleData /\
  (2 <= length getSampleData)%nat /\
  Forall (fun m => id m <> [] /\ name m <> [] /\ photos m <> []) getSampleData /\
  (forall w, syncModels_loop (env_with ∅ (provider_serving [])) getSampleData w =
             (Return getSampleData, w)) /\
  (forall w, persistence_ok (env_with ∅ (provider_serving [])) w ->
     exists w',
       syncModels (env_with ∅ (provider_serving [])) w =
         (Return {| success := true;
                    stats := computeStats getSampleData
                               (Date_toISOString (env_with ∅ (provider_serving []))) |},
          w') /\
       file w' = Some getSampleData).
Proof.
  apply (C7_offline_run_is_sample_data (env_with ∅ (provider_serving []))).
  reflexivity.
Defined.

(** C8. When making the missing output directory or writing the file
    throws, the error leaves [saveModelsToJSON], and [syncModels] rethrows
    the same error to its caller: the run returns no result and no
    statistics. *)
Theorem C8_persistence_error_propagates (env : Env) (w : World) (e : Error) :
  persistence_fails env w e ->
  (forall models, fst (saveModelsToJSON env models w) = Throw e) /\
  fst (syncModels env w) = Throw e /\
  (forall r, fst (syncModels env w) <> Return r).
Proof.
  intros Hfail.
  assert (Hsave : forall models, fst (saveModelsToJSON env models w) = Throw e).
  { intros models.
    destruct (saveModelsToJSON_fails env models w e Hfail) as (w' & -> & _).
    reflexivity. }
  assert (Hthrow : fst (syncModels env w) = Throw e).
  { destruct (getModelsFromGoogleSheets_total env) as (read & Hread).
    rewrite (syncModels_unfold env read w Hread).
    destruct (syncModels_loop_total env read w) as (models' & w1 & -> & Hd & Hf).
    assert (Hfail1 : persistence_fails env w1 e).
    { unfold persistence_fails in *. rewrite Hd. exact Hfail. }
    destruct (saveModelsToJSON_fails env models' w1 e Hfail1) as (w2 & -> & _).
    reflexivity. }
  split; [exact Hsave|]. split; [exact Hthrow|].
  intros r Hr. rewrite Hthrow in Hr. discriminate Hr.
Qed.

Lemma C8_persistence_error_propagates_witness :
  (forall models,
     fst (saveModelsToJSON env_disk_full models fresh_world) =
       Throw {| message := utf16 "ENOSPC" |}) /\
  fst (syncModels env_disk_full fresh_world) = Throw {| message := utf16 "ENOSPC" |} /\
  (forall r, fst (syncModels env_disk_full fresh_world) <> Return r).
Proof.
  apply (C8_persistence_error_propagates env_disk_full fresh_world
           {| message := utf16 "ENOSPC" |}).
  right. split; [right|]; reflexivity.
Defined.

(** C10. With a photo folder configured, the photo lookup returns the
    empty sequence for every identifier and touches nothing; the loop then
    assigns no photos, so an entity that enters the loop without photos
    leaves it without photos, and the snapshot the run writes is the
    sequence the source reader returned. *)
Theorem C10_folder_configured_no_photos_added (env : Env) :
  YANDEX_DISK_FOLDER (CONFIG (process_env env)) <> [] ->
  (forall modelId w, getPhotosForModel env modelId w = (Return [], w)) /\
  (forall model w,
     photos model = [] ->
     exists model', syncModels_step env model w = (Return model', w) /\
                    photos model' = []) /\
  (forall models w, syncModels_loop env models w = (Return models, w)) /\
  (exists models,
     getModelsFromGoogleSheets env = Return models /\
     forall w, persistence_ok env w ->
       exists w',
         syncModels env w =
           (Return {| success := true;
                      stats := computeStats models (Date_toISOString env) |}, w') /\
         file w' = Some models).
Proof.
  intros Hcfg. split; [|split; [|split]].
  - intros modelId w. apply getPhotosForModel_folder. exact Hcfg.
  - intros model w Hempty. exists model. split; [|exact Hempty].
    pose proof (syncModels_loop_folder env [model] w Hcfg) as H.
    cbn [syncModels_loop] in H. unfold bind, ret in H.
    destruct (syncModels_step env model w) as [[m'|e] w1]; congruence.
  - intros models w. apply syncModels_loop_folder. exact Hcfg.
  - destruct (getModelsFromGoogleSheets_total env) as (read & Hread).
    exists read. split; [exact Hread|]. intros w Hok.
    apply syncModels_unchanged; [exact Hread| |exact Hok].
    apply syncModels_loop_folder. exact Hcfg.
Qed.

Lemma C10_folder_configured_no_photos_added_witness :
  (forall modelId w,
     getPhotosForModel (env_with penv_folder (provider_serving [])) modelId w =
       (Return [], w)) /\
  (forall model w,
     photos model = [] ->
     exists model',
       syncModels_step (env_with penv_folder (provider_serving [])) model w =
         (Return model', w) /\
       photos model' = []) /\
  (forall models w,
     syncModels_loop (env_with penv_folder (provider_serving [])) models w =
       (Return models, w)) /\
  (exists models,
     getModelsFromGoogleSheets (env_with penv_folder (provider_serving [])) =
       Return models /\
     forall w, persistence_ok (env_with penv_folder (provider_serving [])) w ->
       exists w',
         syncModels (env_with penv_folder (provider_serving [])) w =
           (Return {| success := true;
                      stats := computeStats models
                                 (Date_toISOString
                                    (env_with penv_folder (provider_serving []))) |},
            w') /\
         file w' = Some models).
Proof.
  apply (C10_folder_configured_no_photos_added
           (env_with penv_folder (provider_serving []))).
  intros H. vm_compute in H. discriminate H.
Defined.

(** * Further properties of the script *)

(** ** Splitting and trimming *)

Section Tokens.

Lemma split_nonempty sep s : split sep s <> [].
Proof.
  destruct s as [|c t]; cbn [split]; [discriminate|].
  destruct (c =? sep)%N; [discriminate|]. destruct (split sep t); discriminate.
Qed.

(** No token of [s.split(sep)] holds the separator. *)
Lemma split_no_separator sep s : forall t, In t (split sep s) -> ~ In sep t.
Proof.
  induction s as [|c r IH]; cbn [split]; intros t Ht.
  - destruct Ht as [<-|[]]. intros [].
  - destruct (c =? sep)%N eqn:Hc.
    + destruct Ht as [<-|Ht]; [intros []|exact (IH t Ht)].
    + apply N.eqb_neq in Hc.
      destruct (split sep r) as [|h tl] eqn:Hs.
      * destruct Ht as [<-|[]]. intros [Heq|[]]. congruence.
      * destruct Ht as [<-|Ht].
        -- intros [Heq|Hin]; [congruence|]. exact (IH h (or_introl eq_refl) Hin).
        -- apply IH. right. exact Ht.
Qed.

Lemma dropWhile_all {A} (p : A -> bool) (l : list A) :
  Forall (fun x => p x = true) l -> dropWhile p l = [].
Proof.
  induction 1 as [|x t Hx _ IH]; cbn [dropWhile]; [reflexivity|].
  rewrite Hx. exact IH.
Qed.

Lemma trim_In s c : In c (trim s) -> In c s.
Proof.
  destruct (trim_decompose s) as (l & r & Hs & _ & _). intros H.
  rewrite Hs. apply in_or_app. right. apply in_or_app. left. exact H.
Qed.

(** [s.trim()] is empty exactly when [s] is made of whitespace only. *)
Lemma trim_nil_iff s : trim s = [] <-> Forall (fun c => is_whitespace c = true) s.
Proof.
  split.
  - intros H. destruct (trim_decompose s) as (l & r & Hs & Hl & Hr).
    rewrite H in Hs. rewrite Hs. apply Forall_app. split; assumption.
  - intros H. unfold trim, trimEnd, trimStart.
    rewrite (dropWhile_all _ _ H). reflexivity.
Qed.

Lemma trim_nonempty_iff s :
  trim s <> [] <-> Exists (fun c => is_whitespace c = false) s.
Proof.
  rewrite trim_nil_iff. split.
  - intros H. induction s as [|c t IH].
    + exfalso. apply H. constructor.
    + destruct (is_whitespace c) eqn:Hc.
      * apply List.Exists_cons_tl. apply IH. intros Ht. apply H. constructor; assumption.
      * apply List.Exists_cons_hd. exact Hc.
  - intros Hex Hall. induction Hex as [c t Hc|c t _ IH].
    + inversion Hall; subst. congruence.
    + inversion Hall; subst. auto.
Qed.

End Tokens.

(** ** Row normalisation *)

(** X1. The photos of a normalised row are the comma-separated tokens of
    the first truthy photos cell ([photos], then [Photos]), each trimmed,
    the empty ones dropped, in their order; the two guards of the code
    (cell truthy, at least one token left) do not change that.  Hence
    every photo is non-empty, has no whitespace at either end and holds no
    comma. *)
Theorem X1_photos_column_tokens (row : Row) :
  photos (rowToModel row) =
    List.filter (fun p => truthy (JStr p))
      (List.map trim
         (split 44 (JS.String (js_or (js_or (prop row "photos") (prop row "Photos"))
                                     (JStr []))))) /\
  Forall (fun p => p <> [] /\ is_trimmed p /\ ~ In 44%N p) (photos (rowToModel row)).
Proof.
  assert (Heq : photos (rowToModel row) =
    List.filter (fun p => truthy (JStr p))
      (List.map trim
         (split 44 (JS.String (js_or (js_or (prop row "photos") (prop row "Photos"))
                                     (JStr [])))))).
  { unfold rowToModel.
    destruct (truthy (js_or (prop row "photos") (prop row "Photos"))) eqn:Ht.
    - match goal with |- context [(0 <? length ?ps)%nat] => set (tokens := ps) end.
      destruct (0 <? length tokens)%nat eqn:Hlen; cbn [photos set_photos].
      + reflexivity.
      + apply Nat.ltb_ge in Hlen. destruct tokens; [reflexivity|cbn in Hlen; lia].
    - cbn [photos]. unfold js_or at 1. rewrite Ht. reflexivity. }
  split; [exact Heq|]. rewrite Heq. apply List.Forall_forall. intros p Hp.
  apply filter_In in Hp. destruct Hp as [Hin Hne].
  apply in_map_iff in Hin. destruct Hin as (t & <- & Ht).
  split; [apply truthy_string; exact Hne|]. split; [apply trim_is_trimmed|].
  intros Hc. apply trim_In in Hc. exact (split_no_separator _ _ _ Ht Hc).
Qed.

(** X2. The lower-case header wins even when it is useless: a row whose
    [id] (or [name]) cell is a non-empty string of whitespace only is
    discarded, whatever its capitalised [ID] (or [Name]) cell holds. *)
Theorem X2_blank_lowercase_cell_hides_capitalised (row : Row) (s : jsstring) :
  prop row "id" = JStr s \/ prop row "name" = JStr s ->
  s <> [] ->
  Forall (fun c => is_whitespace c = true) s ->
  keepModel (rowToModel row) = false.
Proof.
  intros Hcell Hne Hws. apply not_true_iff_false. rewrite keepModel_spec.
  rewrite rowToModel_id, rowToModel_name. intros [Hi Hn].
  assert (Ht : truthy (JStr s) = true) by (apply truthy_string; exact Hne).
  destruct Hcell as [H|H]; rewrite H in *.
  - apply Hi. rewrite (js_or_first _ _ _ Ht). apply trim_nil_iff. exact Hws.
  - apply Hn. rewrite (js_or_first _ _ _ Ht). apply trim_nil_iff. exact Hws.
Qed.

Lemma X2_blank_lowercase_cell_hides_capitalised_witness :
  keepModel (rowToModel row_blank_id) = false.
Proof.
  apply (X2_blank_lowercase_cell_hides_capitalised row_blank_id (utf16 "   ")).
  - left. reflexivity.
  - intros H. vm_compute in H. discriminate H.
  - vm_compute. repeat constructor.
Defined.

Lemma js_or_default_cases a b :
  js_or (js_or a b) (JStr []) = JStr [] \/ truthy (js_or (js_or a b) (JStr [])) = true.
Proof.
  unfold js_or. destruct (truthy a) eqn:Ha.
  - rewrite Ha. right. exact Ha.
  - destruct (truthy b) eqn:Hb; [right; exact Hb|left; reflexivity].
Qed.

(** X3. A descriptive field of a normalised row (height, measurements,
    city, category, bio) is the empty string or a truthy value: it is
    never [undefined], [null] or [false], so a consumer always finds the
    property set. *)
Theorem X3_descriptive_fields_always_set (row : Row) :
  Forall (fun v => (v = JStr [] \/ truthy v = true) /\
                   v <> JUndefined /\ v <> JNull /\ v <> JBool false)
    [ height (rowToModel row); measurements (rowToModel row); city (rowToModel row);
      category (rowToModel row); bio (rowToModel row) ].
Proof.
  destruct (rowToModel_descriptive row) as (Hh & Hm & Hc & Hg & Hb).
  rewrite Hh, Hm, Hc, Hg, Hb.
  repeat (apply List.Forall_cons; [|]); try apply List.Forall_nil;
    match goal with
    | |- context [js_or (js_or ?a ?b) _] =>
      destruct (js_or_default_cases a b) as [H|H]; (split; [auto|]);
        repeat split; intros E; rewrite E in H; discriminate H
    end.
Qed.

(** X4. The discard rule in terms of the cells: a row is kept exactly
    when the text of its first truthy id cell and the text of its first
    truthy name cell each hold a character that is not whitespace. *)
Theorem X4_kept_iff_visible_id_and_name (row : Row) :
  keepModel (rowToModel row) = true <->
  Exists (fun c => is_whitespace c = false)
    (JS.String (js_or (js_or (prop row "id") (prop row "ID")) (JStr []))) /\
  Exists (fun c => is_whitespace c = false)
    (JS.String (js_or (js_or (prop row "name") (prop row "Name")) (JStr []))).
Proof.
  rewrite keepModel_spec, rowToModel_id, rowToModel_name, !trim_nonempty_iff.
  reflexivity.
Qed.

(** ** The live read *)

Lemma filter_sublist_of {A} (p : A -> bool) (l : list A) :
  List.filter p l `sublist_of` l.
Proof.
  induction l as [|x t IH]; cbn [List.filter]; [constructor|].
  destruct (p x); constructor; exact IH.
Qed.

Lemma filter_filter_map_length {A B} (f : A -> B) (p q : B -> bool) (l : list A) :
  length (List.filter q (List.filter p (List.map f l))) =
  length (List.filter (fun x => p (f x) && q (f x)) l).
Proof.
  induction l as [|x t IH]; cbn [List.map List.filter]; [reflexivity|].
  destruct (p (f x)); cbn [List.filter andb]; [|exact IH].
  destruct (q (f x)); cbn [length]; congruence.
Qed.

(** X5. On the live path the entities come out in row order, at most one
    per row, and nothing is merged: for every identifier, the number of
    entities that carry it is the number of kept rows that normalise to
    it, so rows sharing an id all stay. *)
Theorem X5_live_read_keeps_order_and_duplicates (env : Env) (rows : list Row) :
  GOOGLE_SHEET_ID (CONFIG (process_env env)) <> [] ->
  live_read_succeeds env rows ->
  exists models,
    getModelsFromGoogleSheets env = Return models /\
    models `sublist_of` List.map rowToModel rows /\
    (length models <= length rows)%nat /\
    forall x,
      length (List.filter (fun m => jsstring_eqb (id m) x) models) =
      length (List.filter
                (fun row => keepModel (rowToModel row)
                            && jsstring_eqb (id (rowToModel row)) x) rows).
Proof.
  intros Hid Hok. eexists. split; [apply getModelsFromGoogleSheets_live; eassumption|].
  split; [apply filter_sublist_of|]. split.
  - rewrite <- (length_map rowToModel rows). apply List.filter_length_le.
  - intros x. apply (filter_filter_map_length rowToModel keepModel).
Qed.

Lemma X5_live_read_keeps_order_and_duplicates_witness :
  exists models,
    getModelsFromGoogleSheets
      (env_with penv_sheet (provider_serving [row_with_photos; row_with_photos])) =
      Return models /\
    models `sublist_of` List.map rowToModel [row_with_photos; row_with_photos] /\
    (length models <= length [row_with_photos; row_with_photos])%nat /\
    forall x,
      length (List.filter (fun m => jsstring_eqb (id m) x) models) =
      length (List.filter
                (fun row => keepModel (rowToModel row)
                            && jsstring_eqb (id (rowToModel row)) x)
                [row_with_photos; row_with_photos]).
Proof.
  apply (X5_live_read_keeps_order_and_duplicates
           (env_with penv_sheet (provider_serving [row_with_photos; row_with_photos]))).
  - intros H. vm_compute in H. discriminate H.
  - repeat split; reflexivity.
Defined.

Example duplicate_ids_are_both_kept :
  getModelsFromGoogleSheets
    (env_with penv_sheet (provider_serving [row_with_photos; row_with_photos])) =
  Return [rowToModel row_with_photos; rowToModel row_with_photos].
Proof. vm_compute. reflexivity. Qed.

(** X9. The live path is taken only for a non-empty GOOGLE_SHEET_ID: with
    the variable unset, or set to the empty string, the reader returns the
    sample data whatever the sheet provider would answer. *)
Theorem X9_unset_or_empty_sheet_id_is_offline (env : Env) :
  process_env env !! "GOOGLE_SHEET_ID" = None \/
  process_env env !! "GOOGLE_SHEET_ID" = Some ([] : jsstring) ->
  getModelsFromGoogleSheets env = Return getSampleData.
Proof.
  intros H. apply getModelsFromGoogleSheets_offline.
  change (env_or_empty (process_env env) "GOOGLE_SHEET_ID" = []).
  unfold env_or_empty. destruct H as [H|H]; rewrite H; reflexivity.
Qed.

Lemma X9_unset_or_empty_sheet_id_is_offline_witness :
  getModelsFromGoogleSheets
    (env_with {[ "GOOGLE_SHEET_ID" := [] ]} (provider_serving [row_with_photos])) =
  Return getSampleData.
Proof.
  apply (X9_unset_or_empty_sheet_id_is_offline
           (env_with {[ "GOOGLE_SHEET_ID" := [] ]} (provider_serving [row_with_photos]))).
  right. reflexivity.
Defined.

(** ** The photo loop *)

Section Loop.

Variable env : Env.

Lemma same_but_photos_refl m : same_but_photos m m.
Proof. unfold same_but_photos. repeat split. Qed.

Lemma same_but_photos_set m ps : same_but_photos m (set_photos m ps).
Proof. unfold same_but_photos. repeat split. Qed.

(** What one pass of the loop body does to an entity and to the world. *)
Lemma syncModels_step_cases model w :
  (photos model <> [] /\ syncModels_step env model w = (Return model, w)) \/
  (photos model = [] /\ YANDEX_DISK_FOLDER (CONFIG (process_env env)) <> [] /\
   syncModels_step env model w = (Return model, w)) \/
  (photos model = [] /\ YANDEX_DISK_FOLDER (CONFIG (process_env env)) = [] /\
   exists p1 p2,
     syncModels_step env model w =
       (Return (set_photos model [p1; p2]),
        {| random_calls := S (S (random_calls w));
           dir_exists := dir_exists w; file := file w |})).
Proof.
  destruct (photos model) as [|p ps] eqn:Hp.
  - right.
    destruct (decide (YANDEX_DISK_FOLDER (CONFIG (process_env env)) = [])) as [Hc|Hc].
    + right. split; [reflexivity|]. split; [exact Hc|].
      unfold syncModels_step, truthy_array, bind. rewrite Hp.
      cbn [negb orb length Nat.eqb].
      rewrite (getPhotosForModel_placeholder env _ w Hc). eauto.
    + left. split; [reflexivity|]. split; [exact Hc|].
      unfold syncModels_step, truthy_array, bind. rewrite Hp.
      cbn [negb orb length Nat.eqb].
      rewrite (getPhotosForModel_folder env _ w Hc). reflexivity.
  - left. split; [discriminate|]. apply syncModels_step_populated.
    rewrite Hp. discriminate.
Qed.

Lemma syncModels_loop_cons model rest w m' w1 rest' w2 :
  syncModels_step env model w = (Return m', w1) ->
  syncModels_loop env rest w1 = (Return rest', w2) ->
  syncModels_loop env (model :: rest) w = (Return (m' :: rest'), w2).
Proof.
  intros H1 H2. cbn [syncModels_loop]. unfold bind at 1. rewrite H1.
  unfold bind at 1. rewrite H2. reflexivity.
Qed.

(** The loop, entity by entity. *)
Lemma syncModels_loop_spec models : forall w,
  exists models' w',
    syncModels_loop env models w = (Return models', w') /\
    Forall2 (fun m m' => same_but_photos m m' /\
                         (photos m <> [] -> photos m' = photos m) /\
                         (photos m' = [] -> photos m = [])) models models' /\
    dir_exists w' = dir_exists w /\ file w' = file w /\
    (YANDEX_DISK_FOLDER (CONFIG (process_env env)) = [] ->
     Forall (fun m' => photos m' <> []) models' /\
     random_calls w' = (random_calls w + 2 * length (without_photos models))%nat).
Proof.
  induction models as [|model rest IH]; intros w.
  - exists [], w. repeat split; try constructor. cbn. lia.
  - destruct (syncModels_step_cases model w)
      as [[Hp Hs]|[(Hp & Hc & Hs)|(Hp & Hc & p1 & p2 & Hs)]].
    + destruct (IH w) as (rest' & w2 & Hl & HF & Hd & Hf & Hn).
      exists (model :: rest'), w2.
      split; [exact (syncModels_loop_cons _ _ _ _ _ _ _ Hs Hl)|].
      split; [constructor; [|exact HF]; split; [apply same_but_photos_refl|auto]|].
      split; [exact Hd|]. split; [exact Hf|]. intros Hcfg.
      destruct (Hn Hcfg) as [Hall Hcount]. split; [constructor; assumption|].
      unfold without_photos in *. cbn [List.filter].
      destruct (photos model); [contradiction|]. exact Hcount.
    + destruct (IH w) as (rest' & w2 & Hl & HF & Hd & Hf & Hn).
      exists (model :: rest'), w2.
      split; [exact (syncModels_loop_cons _ _ _ _ _ _ _ Hs Hl)|].
      split; [constructor; [|exact HF]; split; [apply same_but_photos_refl|auto]|].
      split; [exact Hd|]. split; [exact Hf|]. intros Hcfg. contradiction.
    + set (w1 := {| random_calls := S (S (random_calls w));
                    dir_exists := dir_exists w; file := file w |}) in *.
      destruct (IH w1) as (rest' & w2 & Hl & HF & Hd & Hf & Hn).
      exists (set_photos model [p1; p2] :: rest'), w2.
      split; [exact (syncModels_loop_cons _ _ _ _ _ _ _ Hs Hl)|].
      split.
      { constructor; [|exact HF]. split; [apply same_but_photos_set|].
        split; [intros H; contradiction|]. cbn [photos set_photos]. discriminate. }
      split; [exact Hd|]. split; [exact Hf|]. intros Hcfg.
      destruct (Hn Hcfg) as [Hall Hcount].
      split; [constructor; [cbn [photos set_photos]; discriminate|exact Hall]|].
      unfold without_photos in *. cbn [List.filter]. rewrite Hp.
      cbn [length Nat.eqb]. rewrite Hcount. cbn [random_calls w1]. lia.
Qed.

End Loop.

(** X6. The photo loop returns the entities it was given, in the same
    order and number, each with every field but [photos] as before;
    photos that were there are kept as they are, and no entity loses its
    photos.  The loop never throws and leaves the file system alone. *)
Theorem X6_loop_changes_photos_only (env : Env) (models : list Entity) (w : World) :
  exists models' w',
    syncModels_loop env models w = (Return models', w') /\
    length models' = length models /\
    Forall2 (fun m m' => same_but_photos m m' /\
                         (photos m <> [] -> photos m' = photos m) /\
                         (photos m' = [] -> photos m = [])) models models' /\
    dir_exists w' = dir_exists w /\ file w' = file w.
Proof.
  destruct (syncModels_loop_spec env models w) as (models' & w' & Hl & HF & Hd & Hf & _).
  exists models', w'. split; [exact Hl|].
  split; [symmetry; exact (Forall2_length _ _ _ HF)|]. auto.
Qed.

(** X7. Without a photo folder the loop makes exactly two [Math.random]
    draws for each entity that arrives without photos, and none for the
    others. *)
Theorem X7_two_draws_per_entity_without_photos
  (env : Env) (models : list Entity) (w : World) :
  YANDEX_DISK_FOLDER (CONFIG (process_env env)) = [] ->
  random_calls (snd (syncModels_loop env models w)) =
    (random_calls w + 2 * length (without_photos models))%nat.
Proof.
  intros Hcfg.
  destruct (syncModels_loop_spec env models w) as (models' & w' & -> & _ & _ & _ & Hn).
  exact (proj2 (Hn Hcfg)).
Qed.

Lemma X7_two_draws_per_entity_without_photos_witness :
  random_calls (snd (syncModels_loop (env_with ∅ (provider_serving []))
                       three_models fresh_world)) =
    (random_calls fresh_world + 2 * length (without_photos three_models))%nat.
Proof.
  apply (X7_two_draws_per_entity_without_photos
           (env_with ∅ (provider_serving [])) three_models fresh_world).
  reflexivity.
Defined.

(** X8. The photo loop is idempotent in every configuration: a second
    pass over the entities it returned changes neither them nor the
    world. *)
Theorem X8_loop_idempotent (env : Env) (models : list Entity) (w : World) :
  exists models' w',
    syncModels_loop env models w = (Return models', w') /\
    syncModels_loop env models' w' = (Return models', w').
Proof.
  destruct (syncModels_loop_spec env models w) as (models' & w' & Hl & _ & _ & _ & Hn).
  exists models', w'. split; [exact Hl|].
  destruct (decide (YANDEX_DISK_FOLDER (CONFIG (process_env env)) = [])) as [Hc|Hc].
  - apply syncModels_loop_populated. exact (proj1 (Hn Hc)).
  - apply syncModels_loop_folder. exact Hc.
Qed.

(** ** Statistics *)

Section Counts.

Lemma positive_count_le (l : list nat) :
  (length (List.filter (fun n => (0 <? n)%nat) l) <= length l)%nat /\
  (length (List.filter (fun n => (0 <? n)%nat) l) <= list_sum l)%nat /\
  (list_sum l = 0%nat <-> length (List.filter (fun n => (0 <? n)%nat) l) = 0%nat).
Proof.
  set (p := fun n => (0 <? n)%nat).
  induction l as [|n t (IH1 & IH2 & IH3)].
  - simpl. repeat split; lia.
  - change (list_sum (n :: t)) with (n + list_sum t)%nat.
    change (length (n :: t)) with (S (length t)).
    destruct n as [|n].
    + change (List.filter p (0%nat :: t)) with (List.filter p t).
      repeat split; try lia; intros H; apply IH3; lia.
    + change (List.filter p (S n :: t)) with (S n :: List.filter p t).
      change (length (S n :: List.filter p t)) with (S (length (List.filter p t))).
      repeat split; lia.
Qed.

End Counts.

(** X10. The statistics of any entity sequence are consistent:
    [modelsWithPhotos] exceeds neither [totalModels] nor [totalPhotos],
    [totalPhotos] is zero exactly when [modelsWithPhotos] is, and the three
    counts of two sequences put end to end are the sums of their counts. *)
Theorem X10_statistics_consistent (a b : list Entity) (now : jsstring) :
  (modelsWithPhotos (computeStats a now) <= totalModels (computeStats a now))%nat /\
  (modelsWithPhotos (computeStats a now) <= totalPhotos (computeStats a now))%nat /\
  (totalPhotos (computeStats a now) = 0%nat <->
   modelsWithPhotos (computeStats a now) = 0%nat) /\
  totalModels (computeStats (a ++ b) now) =
    (totalModels (computeStats a now) + totalModels (computeStats b now))%nat /\
  modelsWithPhotos (computeStats (a ++ b) now) =
    (modelsWithPhotos (computeStats a now) + modelsWithPhotos (computeStats b now))%nat /\
  totalPhotos (computeStats (a ++ b) now) =
    (totalPhotos (computeStats a now) + totalPhotos (computeStats b now))%nat.
Proof.
  destruct (computeStats_spec a now) as (Ha1 & Ha2 & Ha3).
  destruct (computeStats_spec b now) as (Hb1 & Hb2 & Hb3).
  destruct (computeStats_spec (a ++ b) now) as (Hc1 & Hc2 & Hc3).
  destruct (positive_count_le (List.map (fun m => length (photos m)) a)) as (L1 & L2 & L3).
  rewrite Ha1, Ha2, Ha3, Hb1, Hb2, Hb3, Hc1, Hc2, Hc3.
  rewrite List.map_app, List.filter_app, !List.length_app, list_sum_app.
  rewrite List.length_map in L1. repeat split; try lia; apply L3.
Qed.

(** ** Writing the snapshot *)

Section Persistence.

Variable env : Env.

Lemma persistence_cases w :
  persistence_ok env w \/ exists e, persistence_fails env w e.
Proof.
  unfold persistence_ok, persistence_fails.
  destruct (writeFileSync env) as [[]|e2]; destruct (dir_exists w);
    destruct (mkdirSync env) as [[]|e1]; eauto 8.
Qed.

Lemma persistence_exclusive w e : persistence_ok env w -> ~ persistence_fails env w e.
Proof.
  unfold persistence_ok, persistence_fails.
  intros [Hd Hw] [[Hd' Hm]|[_ Hw']]; [|congruence].
  destruct Hd; congruence.
Qed.

Lemma persistence_fails_unique w e e' :
  persistence_fails env w e -> persistence_fails env w e' -> e = e'.
Proof.
  unfold persistence_fails.
  intros [[Hd Hm]|[Hd Hw]] [[Hd' Hm']|[Hd' Hw']]; try congruence.
  - destruct Hd'; congruence.
  - destruct Hd; congruence.
Qed.

Lemma saveModelsToJSON_ok_world models w :
  persistence_ok env w ->
  saveModelsToJSON env models w = (Return tt, with_fs w true (Some models)).
Proof.
  intros [Hdir Hwrite]. unfold saveModelsToJSON, bind, existsSync, with_fs.
  destruct (dir_exists w) eqn:Hd; cbn [negb].
  - unfold ret, do_writeFileSync. rewrite Hwrite, Hd. reflexivity.
  - destruct Hdir as [Hdir|Hmk]; [discriminate|].
    unfold do_mkdirSync. rewrite Hmk. unfold do_writeFileSync. rewrite Hwrite.
    reflexivity.
Qed.

End Persistence.



(** X12. When the output directory exists it is not made again:
    [saveModelsToJSON] behaves the same whatever [mkdirSync] would have
    answered, and with a write that succeeds it returns with the file
    holding the new snapshot. *)
Theorem X12_existing_directory_not_recreated
  (env : Env) (models : list Entity) (w : World) (mk : outcome unit) :
  dir_exists w = true ->
  saveModelsToJSON (with_mkdirSync env mk) models w = saveModelsToJSON env models w /\
  (writeFileSync env = Return tt ->
   saveModelsToJSON (with_mkdirSync env mk) models w =
     (Return tt, with_fs w true (Some models))).
Proof.
  intros Hd.
  assert (Hsame : saveModelsToJSON (with_mkdirSync env mk) models w =
                  saveModelsToJSON env models w).
  { unfold saveModelsToJSON, bind, existsSync. rewrite Hd. reflexivity. }
  split; [exact Hsame|]. intros Hw. rewrite Hsame.
  unfold saveModelsToJSON, bind, existsSync, with_fs. rewrite Hd. cbn [negb].
  unfold ret, do_writeFileSync. rewrite Hw, Hd. reflexivity.
Qed.

Lemma X12_existing_directory_not_recreated_witness :
  saveModelsToJSON
    (with_mkdirSync (env_with ∅ (provider_serving []))
       (Throw {| message := utf16 "EACCES" |}))
    getSampleData world_with_dir =
    saveModelsToJSON (env_with ∅ (provider_serving [])) getSampleData world_with_dir /\
  (writeFileSync (env_with ∅ (provider_serving [])) = Return tt ->
   saveModelsToJSON
     (with_mkdirSync (env_with ∅ (provider_serving []))
        (Throw {| message := utf16 "EACCES" |}))
     getSampleData world_with_dir =
     (Return tt, with_fs world_with_dir true (Some getSampleData))).
Proof.
  apply (X12_existing_directory_not_recreated
           (env_with ∅ (provider_serving [])) getSampleData world_with_dir
           (Throw {| message := utf16 "EACCES" |})).
  reflexivity.
Defined.

(** ** The run as a whole *)

Section WholeRun.

Variable env : Env.

(** The loop does not look at the file system. *)
Lemma syncModels_step_frame model w d f :
  syncModels_step env model (with_fs w d f) =
  (fst (syncModels_step env model w), with_fs (snd (syncModels_step env model w)) d f).
Proof.
  unfold syncModels_step, truthy_array.
  destruct (photos model) as [|p ps]; cbn [negb orb length Nat.eqb]; [|reflexivity].
  unfold bind.
  destruct (decide (YANDEX_DISK_FOLDER (CONFIG (process_env env)) = [])) as [Hc|Hc].
  - rewrite !(getPhotosForModel_placeholder env _ _ Hc).
    change (0 <? length [?a; ?b])%nat with true. cbv beta iota.
    unfold ret, with_fs. cbn [fst snd random_calls dir_exists file]. reflexivity.
  - rewrite !(getPhotosForModel_folder env _ _ Hc). reflexivity.
Qed.

Lemma syncModels_loop_frame models : forall w d f,
  syncModels_loop env models (with_fs w d f) =
  (fst (syncModels_loop env models w), with_fs (snd (syncModels_loop env models w)) d f).
Proof.
  induction models as [|model rest IH]; intros w d f; cbn [syncModels_loop].
  - reflexivity.
  - unfold bind at 1 3 5. rewrite syncModels_step_frame.
    destruct (syncModels_step_total env model w) as (m' & w1 & -> & _ & _).
    cbn [fst snd]. unfold bind. rewrite IH.
    destruct (syncModels_loop_total env rest w1) as (rest' & w2 & -> & _ & _).
    reflexivity.
Qed.

(** The run under working persistence, in full. *)
Lemma syncModels_ok w :
  persistence_ok env w ->
  exists read models w1,
    getModelsFromGoogleSheets env = Return read /\
    syncModels_loop env read w = (Return models, w1) /\
    syncModels env w =
      (Return {| success := true;
                 stats := computeStats models (Date_toISOString env) |},
       with_fs w1 true (Some models)).
Proof.
  intros Hok.
  destruct (getModelsFromGoogleSheets_total env) as (read & Hread).
  destruct (syncModels_loop_total env read w) as (models & w1 & Hloop & Hd & Hf).
  exists read, models, w1. split; [exact Hread|]. split; [exact Hloop|].
  rewrite (syncModels_unfold env read w Hread), Hloop.
  assert (Hok1 : persistence_ok env w1).
  { unfold persistence_ok in *. rewrite Hd. exact Hok. }
  rewrite (saveModelsToJSON_ok_world env models w1 Hok1). reflexivity.
Qed.

Lemma syncModels_fails w e :
  persistence_fails env w e -> exists w', syncModels env w = (Throw e, w').
Proof.
  intros Hfail.
  destruct (getModelsFromGoogleSheets_total env) as (read & Hread).
  destruct (syncModels_loop_total env read w) as (models & w1 & Hloop & Hd & Hf).
  rewrite (syncModels_unfold env read w Hread), Hloop.
  assert (Hfail1 : persistence_fails env w1 e).
  { unfold persistence_fails in *. rewrite Hd. exact Hfail. }
  destruct (saveModelsToJSON_fails env models w1 e Hfail1) as (w2 & -> & _). eauto.
Qed.

End WholeRun.

(** X13. A run builds its snapshot afresh: its outcome, and the file it
    writes, do not depend on what the output file held before. *)
Theorem X13_run_ignores_previous_snapshot
  (env : Env) (w : World) (old : option (list Entity)) :
  fst (syncModels env (with_fs w (dir_exists w) old)) = fst (syncModels env w) /\
  (persistence_ok env w ->
   file (snd (syncModels env (with_fs w (dir_exists w) old))) =
   file (snd (syncModels env w))).
Proof.
  destruct (getModelsFromGoogleSheets_total env) as (read & Hread).
  assert (Hloop := syncModels_loop_frame env read w (dir_exists w) old).
  destruct (syncModels_loop_total env read w) as (models & w1 & Hl & Hd & Hf).
  rewrite Hl in Hloop. cbn [fst snd] in Hloop.
  destruct (persistence_cases env w) as [Hok|[e Hfail]].
  - assert (Hok' : persistence_ok env (with_fs w (dir_exists w) old)) by exact Hok.
    destruct (syncModels_ok env _ Hok) as (r1 & m1 & u1 & H1 & H2 & ->).
    destruct (syncModels_ok env _ Hok') as (r2 & m2 & u2 & H3 & H4 & ->).
    assert (r1 = read) by congruence. assert (r2 = read) by congruence. subst.
    assert (m1 = models) by congruence. assert (m2 = models) by congruence. subst.
    split; [reflexivity|]. intros _. reflexivity.
  - assert (Hfail' : persistence_fails env (with_fs w (dir_exists w) old) e) by exact Hfail.
    destruct (syncModels_fails env _ _ Hfail) as (u1 & ->).
    destruct (syncModels_fails env _ _ Hfail') as (u2 & ->).
    split; [reflexivity|]. intros Hok. exfalso.
    exact (persistence_exclusive env w e Hok Hfail).
Qed.

(** X14. A run has exactly two outcomes, decided by the file system
    alone: it returns a result exactly when the output directory exists or
    can be made and the file can be written, and it throws [e] exactly
    when making the directory or writing the file throws [e].  No error of
    the sheet provider ever reaches the caller. *)
Theorem X14_run_fails_only_on_persistence (env : Env) (w : World) :
  ((exists r w', syncModels env w = (Return r, w')) <-> persistence_ok env w) /\
  (forall e, fst (syncModels env w) = Throw e <-> persistence_fails env w e).
Proof.
  split.
  - split.
    + intros (r & w' & Hrun).
      destruct (persistence_cases env w) as [Hok|[e Hfail]]; [exact Hok|].
      destruct (syncModels_fails env w e Hfail) as (w2 & Hthrow). congruence.
    + intros Hok. destruct (syncModels_ok env w Hok) as (_ & models & w1 & _ & _ & ->).
      eauto.
  - intros e. split.
    + intros Hthrow.
      destruct (persistence_cases env w) as [Hok|[e' Hfail]].
      * destruct (syncModels_ok env w Hok) as (_ & models & w1 & _ & _ & Hrun).
        rewrite Hrun in Hthrow. discriminate Hthrow.
      * destruct (syncModels_fails env w e' Hfail) as (w2 & Hrun).
        rewrite Hrun in Hthrow. cbn [fst] in Hthrow. congruence.
    + intros Hfail. destruct (syncModels_fails env w e Hfail) as (w2 & ->). reflexivity.
Qed.

Lemma getModelsFromGoogleSheets_named env :
  exists models,
    getModelsFromGoogleSheets env = Return models /\
    Forall (fun m => id m <> [] /\ name m <> []) models.
Proof.
  assert (Hsample : Forall (fun m => id m <> [] /\ name m <> []) getSampleData).
  { eapply Forall_impl; [exact getSampleData_populated|]. intros m (? & ? & _). auto. }
  unfold getModelsFromGoogleSheets.
  destruct (not_string _); [eauto|].
  destruct (parseServiceAccount _ _); [|eauto].
  destruct (useServiceAccountAuth _); [|eauto].
  destruct (loadInfo _); [|eauto].
  destruct (getRows _) as [rows|]; [|eauto].
  eexists. split; [reflexivity|]. apply List.Forall_forall. intros m Hm.
  apply filter_In in Hm. apply keepModel_spec, Hm.
Qed.

Lemma all_positive_counts (l : list nat) :
  Forall (fun n => (0 < n)%nat) l ->
  length (List.filter (fun n => (0 <? n)%nat) l) = length l /\
  (length l <= list_sum l)%nat.
Proof.
  set (p := fun n => (0 <? n)%nat).
  induction 1 as [|n t Hn _ [IH1 IH2]]; [split; reflexivity|].
  change (list_sum (n :: t)) with (n + list_sum t)%nat.
  destruct n as [|n]; [lia|].
  change (List.filter p (S n :: t)) with (S n :: List.filter p t).
  change (length (S n :: List.filter p t)) with (S (length (List.filter p t))).
  change (length (S n :: t)) with (S (length t)). split; lia.
Qed.

Lemma all_with_photos_counts (models : list Entity) now :
  Forall (fun m => photos m <> []) models ->
  modelsWithPhotos (computeStats models now) = totalModels (computeStats models now) /\
  (totalModels (computeStats models now) <= totalPhotos (computeStats models now))%nat.
Proof.
  intros H. destruct (computeStats_spec models now) as (H1 & H2 & H3).
  rewrite H1, H2, H3. clear H1 H2 H3.
  rewrite <- (List.length_map (fun m => length (photos m)) models).
  apply all_positive_counts.
  induction H as [|m t Hm _ IH]; cbn [List.map]; constructor; [|exact IH].
  destruct (photos m); [contradiction|cbn [length]; lia].
Qed.

(** X15. Every snapshot a run writes is fit for its consumer: when
    persistence works the run returns, the output directory exists
    afterwards, and each entity of the written file has a non-empty id and
    a non-empty name; [totalModels] is the number of entities written. *)
Theorem X15_written_snapshot_entities_named (env : Env) (w : World) :
  persistence_ok env w ->
  exists r w' models,
    syncModels env w = (Return r, w') /\
    file w' = Some models /\ dir_exists w' = true /\
    Forall (fun m => id m <> [] /\ name m <> []) models /\
    totalModels (stats r) = length models.
Proof.
  intros Hok.
  destruct (syncModels_ok env w Hok) as (read & models & w1 & Hread & Hloop & Hrun).
  destruct (getModelsFromGoogleSheets_named env) as (read' & Hread' & Hnamed).
  assert (read' = read) by congruence. subst read'.
  destruct (syncModels_loop_spec env read w) as (models' & w1' & Hl & HF & _).
  assert (models' = models) by congruence. subst models'.
  do 3 eexists. split; [exact Hrun|]. cbn [file dir_exists with_fs].
  split; [reflexivity|]. split; [reflexivity|]. split; [|reflexivity].
  clear - Hnamed HF. induction HF as [|m m' l l' (Hs & _) _ IH]; [constructor|].
  inversion Hnamed as [|? ? [Hi Hn] Hrest]; subst.
  constructor; [|exact (IH Hrest)].
  destruct Hs as (Ei & En & _). rewrite Ei, En. auto.
Qed.

Lemma X15_written_snapshot_entities_named_witness :
  exists r w' models,
    syncModels (env_with penv_sheet (provider_serving [row_padded; row_blank_id]))
      fresh_world = (Return r, w') /\
    file w' = Some models /\ dir_exists w' = true /\
    Forall (fun m => id m <> [] /\ name m <> []) models /\
    totalModels (stats r) = length models.
Proof.
  apply (X15_written_snapshot_entities_named
           (env_with penv_sheet (provider_serving [row_padded; row_blank_id]))
           fresh_world).
  split; [right|]; reflexivity.
Defined.

(** X16. Without a photo folder no entity is written without photos:
    when persistence works, every entity of the written snapshot has at
    least one photo, so [modelsWithPhotos] equals [totalModels] and
    [totalPhotos] is at least as large. *)
Theorem X16_no_folder_every_entity_has_photos (env : Env) (w : World) :
  YANDEX_DISK_FOLDER (CONFIG (process_env env)) = [] ->
  persistence_ok env w ->
  exists r w' models,
    syncModels env w = (Return r, w') /\
    file w' = Some models /\
    Forall (fun m => photos m <> []) models /\
    modelsWithPhotos (stats r) = totalModels (stats r) /\
    (totalModels (stats r) <= totalPhotos (stats r))%nat.
Proof.
  intros Hcfg Hok.
  destruct (syncModels_ok env w Hok) as (read & models & w1 & Hread & Hloop & Hrun).
  destruct (syncModels_loop_spec env read w) as (models' & w1' & Hl & _ & _ & _ & Hn).
  assert (models' = models) by congruence. subst models'.
  destruct (Hn Hcfg) as [Hall _].
  do 3 eexists. split; [exact Hrun|]. cbn [file with_fs stats].
  split; [reflexivity|]. split; [exact Hall|].
  apply all_with_photos_counts. exact Hall.
Qed.

Lemma X16_no_folder_every_entity_has_photos_witness :
  exists r w' models,
    syncModels (env_with penv_sheet (provider_serving [row_padded; row_with_photos]))
      fresh_world = (Return r, w') /\
    file w' = Some models /\
    Forall (fun m => photos m <> []) models /\
    modelsWithPhotos (stats r) = totalModels (stats r) /\
    (totalModels (stats r) <= totalPhotos (stats r))%nat.
Proof.
  apply (X16_no_folder_every_entity_has_photos
           (env_with penv_sheet (provider_serving [row_padded; row_with_photos]))
           fresh_world).
  - reflexivity.
  - split; [right|]; reflexivity.
Defined.

(** X17. The exit status of the script is 0 or 1 and is decided by the
    file system alone: 0 exactly when the output directory exists or can
    be made and the file can be written, 1 exactly when one of the two
    throws.  A sheet that cannot be read never makes the script exit with
    status 1. *)
Theorem X17_exit_status (env : Env) (w : World) :
  (fst (main env w) = 0 <-> persistence_ok env w) /\
  (fst (main env w) = 1 <-> exists e, persistence_fails env w e) /\
  (fst (main env w) = 0 \/ fst (main env w) = 1).
Proof.
  unfold main.
  destruct (persistence_cases env w) as [Hok|[e Hfail]].
  - destruct (syncModels_ok env w Hok) as (_ & models & w1 & _ & _ & ->). cbn [fst].
    split; [tauto|]. split; [|auto]. split; [discriminate|].
    intros [e Hfail]. exfalso. exact (persistence_exclusive env w e Hok Hfail).
  - destruct (syncModels_fails env w e Hfail) as (w' & ->). cbn [fst].
    split; [|split; [|auto]].
    + split; [discriminate|]. intros Hok. exfalso.
      exact (persistence_exclusive env w e Hok Hfail).
    + split; eauto.
Qed.

(** ** Placeholder identifiers *)

Lemma draw_for_covers :
  forallb (fun k =>
             is_random_draw (draw_for (Z.of_nat k)) &&
             match Math_floor (Number_multiply (draw_for (Z.of_nat k)) thousand) with
             | NInt z => z =? Z.of_nat k
             | _ => false
             end) (seq 0 1000) = true.
Proof. vm_compute. reflexivity. Qed.

(** X18. Every identifier from 0 to 999 can occur in a placeholder URL:
    for each such [n] there is a value [Math.random] may return for which
    the photo lookup, with no folder configured, gives the URL with
    identifier [n] as its first photo. *)
Theorem X18_every_identifier_attainable (n : Z) :
  0 <= n <= 999 ->
  exists r,
    is_random_draw r = true /\
    forall env modelId w,
      YANDEX_DISK_FOLDER (CONFIG (process_env env)) = [] ->
      Math_random env (random_calls w) = r ->
      exists second w',
        getPhotosForModel env modelId w =
          (Return [placeholder_url (NInt n); second], w').
Proof.
  intros Hn. exists (draw_for n).
  pose proof draw_for_covers as H. rewrite forallb_forall in H.
  specialize (H (Z.to_nat n)). rewrite Z2Nat.id in H by lia.
  assert (Hin : In (Z.to_nat n) (seq 0 1000)) by (apply in_seq; lia).
  apply H in Hin. apply andb_true_iff in Hin. destruct Hin as [Hdraw Hfloor].
  split; [exact Hdraw|]. intros env modelId w Hcfg Hr.
  rewrite (getPhotosForModel_placeholder env modelId w Hcfg), Hr.
  destruct (Math_floor (Number_multiply (draw_for n) thousand)) as [z| |];
    try discriminate Hfloor.
  apply Z.eqb_eq in Hfloor. subst z. eauto.
Qed.

Lemma X18_every_identifier_attainable_witness :
  exists r,
    is_random_draw r = true /\
    forall env modelId w,
      YANDEX_DISK_FOLDER (CONFIG (process_env env)) = [] ->
      Math_random env (random_calls w) = r ->
      exists second w',
        getPhotosForModel env modelId w =
          (Return [placeholder_url (NInt 437); second], w').
Proof.
  apply (X18_every_identifier_attainable 437). lia.
Defined.

(** ** An empty sheet *)

(** X19. A sheet that can be read but yields no entity (no rows, or only
    rows that are discarded) does not fall back to the sample data: the
    run writes the empty snapshot and reports zero models and zero
    photos, making no random draw. *)
Theorem X19_empty_sheet_gives_empty_snapshot (env : Env) (rows : list Row) (w : World) :
  GOOGLE_SHEET_ID (CONFIG (process_env env)) <> [] ->
  live_read_succeeds env rows ->
  Forall (fun row => keepModel (rowToModel row) = false) rows ->
  persistence_ok env w ->
  getModelsFromGoogleSheets env = Return [] /\
  syncModels env w =
    (Return {| success := true;
               stats := {| totalModels := 0; modelsWithPhotos := 0; totalPhotos := 0;
                           timestamp := Date_toISOString env |} |},
     with_fs w true (Some [])).
Proof.
  intros Hid Hlive Hnone Hok.
  assert (Hread : getModelsFromGoogleSheets env = Return []).
  { rewrite (getModelsFromGoogleSheets_live env rows Hid Hlive). f_equal.
    clear - Hnone. induction Hnone as [|row t Hrow _ IH]; [reflexivity|].
    cbn [List.map List.filter]. rewrite Hrow. exact IH. }
  split; [exact Hread|].
  rewrite (syncModels_unfold env [] w Hread). cbn [syncModels_loop]. unfold ret at 1.
  rewrite (saveModelsToJSON_ok_world env [] w Hok). reflexivity.
Qed.

Lemma X19_empty_sheet_gives_empty_snapshot_witness :
  getModelsFromGoogleSheets (env_with penv_sheet (provider_serving [row_blank_id])) =
    Return [] /\
  syncModels (env_with penv_sheet (provider_serving [row_blank_id])) fresh_world =
    (Return {| success := true;
               stats := {| totalModels := 0; modelsWithPhotos := 0; totalPhotos := 0;
                           timestamp :=
                             Date_toISOString
                               (env_with penv_sheet (provider_serving [row_blank_id])) |} |},
     with_fs fresh_world true (Some [])).
Proof.
  apply (X19_empty_sheet_gives_empty_snapshot
           (env_with penv_sheet (provider_serving [row_blank_id]))
           [row_blank_id] fresh_world).
  - intros H. vm_compute in H. discriminate H.
  - repeat split; reflexivity.
  - constructor; [vm_compute; reflexivity|constructor].
  - split; [right|]; reflexivity.
Defined.
